(** * Smart parking operator console: zone overlay and state-change
      notification engine

    A shallow embedding of the browser-side logic of the parking console
    (the notification provider and its list, the calibration editor, the
    plate masking helper, the live-feed overlay, the alerts and colours of
    the dashboard, the violation summary, the pages of the event log and the
    navigation bar) together with the properties of its specification and
    further properties read off the code.

    Conventions of the embedding.
    - A JavaScript number is an exact rational extended with [NaN] and the
      two infinities.  The rounding of IEEE-754 binary64 operations and the
      sign of zero are not represented.
    - A JavaScript string is a [string] of 8-bit characters; the conversions
      the engine performs on strings and numbers ([ToNumber] on a string,
      [ToString] on a number, [toUpperCase], [trim]) are the fields of the
      class [JSEngine], so every general theorem holds for whatever the
      engine computes there.  [ref_engine] is an instance on ASCII text and
      integer literals, used to run the functions on concrete inputs.
    - A JavaScript object used as a dictionary is a [gmap string _]; an array
      is a [list].  [Object.entries] enumerates a dictionary through
      [map_to_list]; the properties below count events and never depend on
      the enumeration order, except where two enumerations of one and the
      same dictionary are compared.  Keys are taken not to collide with the
      names a plain object inherits from [Object.prototype]. *)

From Stdlib Require Import ZArith QArith Qround Qabs Lqa String Ascii List Lia
  DecimalString.
From stdpp Require Import gmap strings list fin_maps.

Local Open Scope string_scope.
Local Open Scope Z_scope.

(** ** JavaScript values *)

Module JS.

Inductive jsnum : Type :=
  | NaN
  | PInf
  | NInf
  | Fin (q : Q).

Inductive jsval : Type :=
  | JUndef
  | JNull
  | JBool (b : bool)
  | JNum (n : jsnum)
  | JStr (s : string).

Definition num_of_Z (z : Z) : jsnum := Fin (inject_Z z).

Definition Qsign_pos (q : Q) : bool := (0 <? Qnum q)%Z.
Definition Qsign_neg (q : Q) : bool := (Qnum q <? 0)%Z.
Definition Qis_zero (q : Q) : bool := (Qnum q =? 0)%Z.

Definition num_neg (a : jsnum) : jsnum :=
  match a with
  | NaN => NaN
  | PInf => NInf
  | NInf => PInf
  | Fin q => Fin (- q)%Q
  end.

(** [a + b] on numbers. *)
Definition num_add (a b : jsnum) : jsnum :=
  match a, b with
  | NaN, _ | _, NaN => NaN
  | PInf, NInf | NInf, PInf => NaN
  | PInf, _ | _, PInf => PInf
  | NInf, _ | _, NInf => NInf
  | Fin x, Fin y => Fin (x + y)%Q
  end.

(** [a - b] on numbers. *)
Definition num_sub (a b : jsnum) : jsnum := num_add a (num_neg b).

Definition inf_of_sign (positive : bool) : jsnum :=
  if positive then PInf else NInf.

(** [a * b] on numbers. *)
Definition num_mul (a b : jsnum) : jsnum :=
  match a, b with
  | NaN, _ | _, NaN => NaN
  | Fin x, Fin y => Fin (x * y)%Q
  | Fin x, PInf | PInf, Fin x =>
      if Qis_zero x then NaN else inf_of_sign (Qsign_pos x)
  | Fin x, NInf | NInf, Fin x =>
      if Qis_zero x then NaN else inf_of_sign (Qsign_neg x)
  | PInf, PInf | NInf, NInf => PInf
  | PInf, NInf | NInf, PInf => NInf
  end.

(** [a / b] on numbers; a zero divisor is the positive zero. *)
Definition num_div (a b : jsnum) : jsnum :=
  match a, b with
  | NaN, _ | _, NaN => NaN
  | Fin x, Fin y =>
      if Qis_zero y
      then (if Qis_zero x then NaN else inf_of_sign (Qsign_pos x))
      else Fin (x / y)%Q
  | Fin _, (PInf | NInf) => Fin 0
  | (PInf | NInf), (PInf | NInf) => NaN
  | PInf, Fin y => inf_of_sign (negb (Qsign_neg y))
  | NInf, Fin y => inf_of_sign (Qsign_neg y)
  end.

(** [a < b] on numbers: false as soon as one side is [NaN]. *)
Definition num_lt (a b : jsnum) : bool :=
  match a, b with
  | NaN, _ | _, NaN => false
  | _, NInf => false
  | NInf, _ => true
  | PInf, _ => false
  | _, PInf => true
  | Fin x, Fin y => if Qlt_le_dec x y then true else false
  end.

(** [a > b]. *)
Definition num_gt (a b : jsnum) : bool := num_lt b a.

(** [a === b] on numbers. *)
Definition num_eq (a b : jsnum) : bool :=
  match a, b with
  | PInf, PInf | NInf, NInf => true
  | Fin x, Fin y => Qeq_bool x y
  | _, _ => false
  end.

(** [Math.min(a, b)] and [Math.max(a, b)]. *)
Definition Math_min (a b : jsnum) : jsnum :=
  match a, b with
  | NaN, _ | _, NaN => NaN
  | _, _ => if num_lt b a then b else a
  end.

Definition Math_max (a b : jsnum) : jsnum :=
  match a, b with
  | NaN, _ | _, NaN => NaN
  | _, _ => if num_lt a b then b else a
  end.

(** [Math.round(a)]: the integer nearest to [a], a tie going up. *)
Definition Math_round (a : jsnum) : jsnum :=
  match a with
  | Fin q => num_of_Z (Qfloor (q + (1 # 2)))
  | other => other
  end.

(** Truthiness ([ToBoolean]). *)
Definition truthy (v : jsval) : bool :=
  match v with
  | JUndef | JNull => false
  | JBool b => b
  | JNum NaN => false
  | JNum (Fin q) => negb (Qis_zero q)
  | JNum _ => true
  | JStr s => negb (String.eqb s "")
  end.

(** [a || b]: the left operand when it is truthy, the right one otherwise. *)
Definition js_or (a b : jsval) : jsval := if truthy a then a else b.

(** [a === b] on primitive values. *)
Definition strict_eq (a b : jsval) : bool :=
  match a, b with
  | JUndef, JUndef | JNull, JNull => true
  | JBool x, JBool y => Bool.eqb x y
  | JNum x, JNum y => num_eq x y
  | JStr x, JStr y => String.eqb x y
  | _, _ => false
  end.

(** *** Strings *)

Fixpoint startsWith (s p : string) {struct p} : bool :=
  match p, s with
  | EmptyString, _ => true
  | String _ _, EmptyString => false
  | String a p', String b s' => Ascii.eqb a b && startsWith s' p'
  end.

(** [s.includes(needle)]: [needle] occurs somewhere in [s]. *)
Fixpoint includes (s needle : string) : bool :=
  startsWith s needle ||
  match s with
  | EmptyString => false
  | String _ s' => includes s' needle
  end.

(** Decimal digits of a natural number. *)
Definition digits (n : N) : string := NilEmpty.string_of_uint (N.to_uint n).

(** The conversions the engine performs between strings and numbers, and the
    two string methods the console calls. *)
Class JSEngine : Type := {
  StringToNumber : string -> jsnum;
  NumberToString : jsnum -> string;
  toUpperCase : string -> string;
  trim : string -> string
}.

Section Conversions.
Context `{JSEngine}.

(** [ToNumber] on a primitive value. *)
Definition ToNumber (v : jsval) : jsnum :=
  match v with
  | JUndef => NaN
  | JNull => Fin 0
  | JBool true => Fin 1
  | JBool false => Fin 0
  | JNum n => n
  | JStr s => StringToNumber s
  end.

(** [ToString] on a primitive value. *)
Definition ToString (v : jsval) : string :=
  match v with
  | JUndef => "undefined"
  | JNull => "null"
  | JBool true => "true"
  | JBool false => "false"
  | JNum n => NumberToString n
  | JStr s => s
  end.

(** [a - b] on primitive values. *)
Definition js_sub (a b : jsval) : jsval :=
  JNum (num_sub (ToNumber a) (ToNumber b)).

(** [a + b] on primitive values: concatenation when a side is a string. *)
Definition js_add (a b : jsval) : jsval :=
  match a, b with
  | JStr _, _ | _, JStr _ => JStr (ToString a ++ ToString b)
  | _, _ => JNum (num_add (ToNumber a) (ToNumber b))
  end.

(** [a * b] on primitive values. *)
Definition js_mul (a b : jsval) : jsnum :=
  num_mul (ToNumber a) (ToNumber b).

(** [Math.round(v)] on a primitive value. *)
Definition js_round (v : jsval) : jsval := JNum (Math_round (ToNumber v)).

(** [x.toFixed(f)]: a minus sign for a negative [x], then, for a magnitude
    below [10^21], the decimal numeral with [f] fraction digits nearest to
    the magnitude (the larger one on a tie), and [ToString] of the magnitude
    otherwise. *)
Definition toFixed (x : jsnum) (f : nat) : string :=
  match x with
  | Fin q =>
      let s := if Qsign_neg q then "-" else "" in
      let a := Qabs q in
      let m :=
        if Qle_bool (inject_Z (10 ^ 21)) a then NumberToString (Fin a)
        else
          let scale := 10 ^ Z.of_nat f in
          let n := Z.to_N (Qfloor (a * inject_Z scale + (1 # 2))) in
          let ip := digits (n / Z.to_N scale) in
          let fp := digits (n mod Z.to_N scale) in
          let pad := String.concat "" (repeat "0" (f - String.length fp)) in
          ip ++ match f with O => "" | S _ => "." ++ pad ++ fp end in
      s ++ m
  | other => NumberToString other
  end.

End Conversions.

(** *** A reference engine on ASCII text and integer literals *)

Definition is_space (c : ascii) : bool :=
  let n := nat_of_ascii c in
  ((9 <=? n) && (n <=? 13) || (n =? 32))%nat.

Fixpoint trim_start (s : string) : string :=
  match s with
  | String c s' => if is_space c then trim_start s' else s
  | EmptyString => EmptyString
  end.

Definition string_rev (s : string) : string :=
  string_of_list_ascii (rev (list_ascii_of_string s)).

Definition ascii_trim (s : string) : string :=
  string_rev (trim_start (string_rev (trim_start s))).

Definition upper_char (c : ascii) : ascii :=
  let n := nat_of_ascii c in
  if ((97 <=? n) && (n <=? 122))%nat then ascii_of_nat (n - 32) else c.

Fixpoint ascii_upper (s : string) : string :=
  match s with
  | EmptyString => EmptyString
  | String c s' => String (upper_char c) (ascii_upper s')
  end.

(** Integer literals: an optional minus sign and decimal digits. *)
Definition integer_of_string (s : string) : jsnum :=
  match ascii_trim s with
  | EmptyString => Fin 0
  | String "-" r =>
      match NilEmpty.uint_of_string r with
      | Some u => match r with
                  | EmptyString => NaN
                  | _ => num_of_Z (- Z.of_uint u)
                  end
      | None => NaN
      end
  | r =>
      match NilEmpty.uint_of_string r with
      | Some u => num_of_Z (Z.of_uint u)
      | None => NaN
      end
  end.

(** Integers print in decimal; the reference engine is never asked to print
    a fraction. *)
Definition string_of_number (n : jsnum) : string :=
  match n with
  | NaN => "NaN"
  | PInf => "Infinity"
  | NInf => "-Infinity"
  | Fin q =>
      let z := Qfloor q in
      (if (z <? 0)%Z then "-" else "") ++ digits (Z.abs_N z)
  end.

#[export] Instance ref_engine : JSEngine := {|
  StringToNumber := integer_of_string;
  NumberToString := string_of_number;
  toUpperCase := ascii_upper;
  trim := ascii_trim
|}.

End JS.

Import JS.

(** ** The notification provider (NotificationContext)

    Source: [src/unnamed/part_000], the context provider with
    [checkSlotChanges], [checkViolationChanges] and [getSlotStatistics]. *)

Module Provider.

(** A slot record of the [/slots] payload.  Only the fields the provider
    reads are kept; an absent field is [JUndef]. *)
Record slot : Type := mkSlot {
  slot_id : jsval;
  slot_slotId : jsval;
  slot_isOccupied : jsval;
  slot_status : jsval;
  slot_name : jsval;
  slot_plate : jsval
}.

(** A value stored under a key of an object payload: a primitive (among them
    [null], whose [typeof] is ['object']) or a slot record. *)
Inductive entry : Type :=
  | EPrim (v : jsval)
  | ESlot (s : slot).

(** The argument of [checkSlotChanges]. *)
Inductive slots_payload : Type :=
  | SlotsArray (l : list slot)
  | SlotsObject (m : gmap string entry)
  | SlotsNull
  | SlotsOther.

(** A violation record of [activeViolationsList]. *)
Record violation : Type := mkViolation {
  v_id : jsval;
  v_license_plate : jsval;
  v_zone : jsval;
  v_timestamp : jsval
}.

Inductive ntype : Type :=
  | slot_available
  | slot_occupied
  | illegal_parking
  | warning
  | success.

Inductive ndata : Type :=
  | SlotAvailableData (slotId : string) (slotName : jsval) (status : string)
  | SlotOccupiedData (slotId : string) (slotName licensePlate : jsval)
      (status : string)
  | ViolationData (violationId zone licensePlate timestamp : jsval)
      (severity : string).

(** The argument of one call of [addNotification]. *)
Record request : Type := mkRequest {
  req_type : ntype;
  req_message : string;
  req_data : ndata
}.

(** A value of a slot dictionary: a slot record, or [null] ([None]). *)
Definition slotval : Type := option slot.

(** The state held by the provider that the diffing reads and writes. *)
Record provider : Type := mkProvider {
  slotStatus : gmap string slotval;
  activeViolations : list violation;
  prevSlotsRef : gmap string slotval;
  prevViolationsRef : list violation
}.

Definition initial : provider :=
  {| slotStatus := ∅; activeViolations := [];
     prevSlotsRef := ∅; prevViolationsRef := [] |}.

Inductive completion : Type :=
  | Returns
  | ThrowsTypeError.

(** What a call leaves behind: the calls of [addNotification] it made, in
    order, the provider state, and how it completed. *)
Record outcome : Type := mkOutcome {
  emitted : list request;
  final : provider;
  completed : completion
}.

Definition ntype_eqb (a b : ntype) : bool :=
  match a, b with
  | slot_available, slot_available
  | slot_occupied, slot_occupied
  | illegal_parking, illegal_parking
  | warning, warning
  | success, success => true
  | _, _ => false
  end.

Section Diffing.
Context `{JSEngine}.

(** [slot.isOccupied || slot.status === 'occupied'] *)
Definition normalized_isOccupied (s : slot) : jsval :=
  js_or (slot_isOccupied s)
        (JBool (strict_eq (slot_status s) (JStr "occupied"))).

(** One step of the [forEach] over an array payload:
    [currentSlotsMap[slot.id || slot.slotId] = {...slot, isOccupied: ...}] *)
Definition array_step (acc : gmap string slotval) (s : slot)
  : gmap string slotval :=
  let slotId := js_or (slot_id s) (slot_slotId s) in
  <[ ToString slotId :=
       Some {| slot_id := slot_id s;
               slot_slotId := slot_slotId s;
               slot_isOccupied := normalized_isOccupied s;
               slot_status := slot_status s;
               slot_name := slot_name s;
               slot_plate := slot_plate s |} ]> acc.

(** [typeof value === 'object'] *)
Definition typeof_object (e : entry) : bool :=
  match e with
  | ESlot _ => true
  | EPrim JNull => true
  | EPrim _ => false
  end.

(** What is stored for a value whose [typeof] is ['object']. *)
Definition stored (e : entry) : slotval :=
  match e with
  | ESlot s => Some s
  | EPrim _ => None
  end.

(** One step of the [forEach] over the entries of an object payload. *)
Definition object_step (acc : gmap string slotval) (kv : string * entry)
  : gmap string slotval :=
  if typeof_object kv.2 then <[ kv.1 := stored kv.2 ]> acc else acc.

(** The dictionary built from the payload; [None] when [Object.entries]
    throws on [null]. *)
Definition currentSlotsMap (p : slots_payload)
  : option (gmap string slotval) :=
  match p with
  | SlotsArray l => Some (foldl array_step ∅ l)
  | SlotsObject m => Some (foldl object_step ∅ (map_to_list m))
  | SlotsNull => None
  | SlotsOther => Some ∅
  end.

Definition available_request (slotId : string) (s : slot) : request :=
  {| req_type := slot_available;
     req_message := "Parking Slot " ++ slotId ++ " is now available";
     req_data := SlotAvailableData slotId
                   (js_or (slot_name s) (JStr slotId)) "AVAILABLE" |}.

Definition occupied_request (slotId : string) (s : slot) : request :=
  {| req_type := slot_occupied;
     req_message := "Parking Slot " ++ slotId ++ " is now occupied";
     req_data := SlotOccupiedData slotId
                   (js_or (slot_name s) (JStr slotId))
                   (js_or (slot_plate s) (JStr "Unknown")) "OCCUPIED" |}.

(** The body of the comparison loop for one entry of the current
    dictionary; [None] when reading [slot.isOccupied] throws because the
    entry is [null]. *)
Definition compare_slot (prev : gmap string slotval) (slotId : string)
    (cur : slotval) : option (list request) :=
  match prev !! slotId with
  | Some (Some prevSlot) =>
      match cur with
      | None => None
      | Some s =>
          if truthy (slot_isOccupied prevSlot)
             && negb (truthy (slot_isOccupied s))
          then Some [available_request slotId s]
          else if negb (truthy (slot_isOccupied prevSlot))
                  && truthy (slot_isOccupied s)
          then Some [occupied_request slotId s]
          else Some []
      end
  | _ => Some []
  end.

(** [Object.entries(currentSlotsMap).forEach(...)]: the requests made, and
    whether the loop ran to its end. *)
Fixpoint compare_all (prev : gmap string slotval)
    (entries : list (string * slotval)) : list request * completion :=
  match entries with
  | [] => ([], Returns)
  | (slotId, cur) :: rest =>
      match compare_slot prev slotId cur with
      | None => ([], ThrowsTypeError)
      | Some rs =>
          let '(more, c) := compare_all prev rest in ((rs ++ more)%list, c)
      end
  end.

Definition checkSlotChanges (st : provider) (currentSlots : slots_payload)
  : outcome :=
  match currentSlotsMap currentSlots with
  | None => {| emitted := []; final := st; completed := ThrowsTypeError |}
  | Some cur =>
      match compare_all (prevSlotsRef st) (map_to_list cur) with
      | (rs, ThrowsTypeError) =>
          {| emitted := rs; final := st; completed := ThrowsTypeError |}
      | (rs, Returns) =>
          {| emitted := rs;
             final := {| slotStatus := cur;
                         activeViolations := activeViolations st;
                         prevSlotsRef := cur;
                         prevViolationsRef := prevViolationsRef st |};
             completed := Returns |}
      end
  end.

(** The callback of [prevViolationsRef.current.some(...)]. *)
Definition same_violation (v violation : violation) : bool :=
  strict_eq (v_id v) (v_id violation)
  || (strict_eq (v_license_plate v) (v_license_plate violation)
      && strict_eq (v_timestamp v) (v_timestamp violation)).

Definition isNewViolation (prev : list violation) (violation : violation)
  : bool :=
  negb (existsb (fun v => same_violation v violation) prev).

Definition violation_request (violation : violation) : request :=
  {| req_type := illegal_parking;
     req_message :=
       "⚠️ Illegal Parking Violation: "
       ++ ToString (js_or (v_license_plate violation) (JStr "Unknown"))
       ++ " in "
       ++ ToString (js_or (v_zone violation) (JStr "restricted zone"));
     req_data := ViolationData (v_id violation) (v_zone violation)
                   (v_license_plate violation) (v_timestamp violation)
                   "HIGH" |}.

Fixpoint report_new (prev : list violation) (violations : list violation)
  : list request :=
  match violations with
  | [] => []
  | violation :: rest =>
      ((if isNewViolation prev violation
        then [violation_request violation] else [])
       ++ report_new prev rest)%list
  end.

(** [currentViolations] is [Some l] for an array and [None] for anything
    else, which the function replaces by the empty array. *)
Definition checkViolationChanges (st : provider)
    (currentViolations : option (list violation)) : outcome :=
  let violations := match currentViolations with
                    | Some l => l
                    | None => []
                    end in
  {| emitted := report_new (prevViolationsRef st) violations;
     final := {| slotStatus := slotStatus st;
                 activeViolations := violations;
                 prevSlotsRef := prevSlotsRef st;
                 prevViolationsRef := violations |};
     completed := Returns |}.

(** The record returned by [getSlotStatistics]. *)
Record statistics : Type := mkStatistics {
  total : Z;
  occupied : Z;
  available : Z;
  occupancyPercentage : jsval;
  slots : gmap string slotval
}.

(** [slots.filter(s => s.isOccupied)]; [None] when an element is [null]. *)
Fixpoint filter_occupied (l : list slotval) : option (list slotval) :=
  match l with
  | [] => Some []
  | None :: _ => None
  | Some s :: rest =>
      match filter_occupied rest with
      | None => None
      | Some kept =>
          Some (if truthy (slot_isOccupied s) then Some s :: kept else kept)
      end
  end.

Definition getSlotStatistics (st : provider) : option statistics :=
  let slots := (map_to_list (slotStatus st)).*2 in
  let total := Z.of_nat (length slots) in
  match filter_occupied slots with
  | None => None
  | Some occ =>
      let occupied := Z.of_nat (length occ) in
      let available := total - occupied in
      let occupancyPercentage :=
        if 0 <? total
        then JStr (toFixed (num_mul (num_div (num_of_Z occupied)
                                             (num_of_Z total))
                                    (num_of_Z 100)) 1)
        else JNum (num_of_Z 0) in
      Some {| total := total; occupied := occupied;
              available := available;
              occupancyPercentage := occupancyPercentage;
              slots := slotStatus st |}
  end.

End Diffing.

(** Counting the requests of a given type about a given slot. *)
Definition about_slot (t : ntype) (k : string) (r : request) : bool :=
  ntype_eqb t (req_type r) &&
  match req_data r with
  | SlotAvailableData slotId _ _ | SlotOccupiedData slotId _ _ _ =>
      String.eqb slotId k
  | ViolationData _ _ _ _ _ => false
  end.

Fixpoint count {A : Type} (f : A -> bool) (l : list A) : nat :=
  match l with
  | [] => 0%nat
  | x :: l' => ((if f x then 1 else 0) + count f l')%nat
  end.

End Provider.

(** ** The calibration editor

    Source: [src/unnamed/part_001], the calibration page with
    [loadCalibration], [drawCanvas], the mouse handlers and [handleSave]. *)

Module Calibration.

Inductive mode : Type :=
  | slots
  | illegal.

(** A rectangle of the editor, in image coordinates.  [loadCalibration]
    stores the first two tuple members as they came, so the coordinates are
    values, not necessarily numbers. *)
Record rect : Type := mkRect {
  rect_id : string;
  rect_x : jsval;
  rect_y : jsval;
  rect_width : jsval;
  rect_height : jsval
}.

(** The value stored under an id in a calibration payload: an array of
    primitive members, or anything else. *)
Inductive coords : Type :=
  | CoordsArray (members : list jsval)
  | CoordsOther.

(** The body of [GET /calibration]; a collection that is absent (or any
    falsy value) is [None]. *)
Record calibration_data : Type := mkData {
  parking_slots : option (gmap string coords);
  illegal_zones : option (gmap string coords)
}.

(** The in-progress rectangle, in canvas coordinates. *)
Record drawing : Type := mkDrawing {
  startX : jsnum;
  startY : jsnum;
  endX : jsnum;
  endY : jsnum
}.

Record editor : Type := mkEditor {
  mode_of : mode;
  rectangles_slots : list rect;
  rectangles_illegal : list rect;
  currentRect : option drawing;
  isDrawing : bool;
  isSaving : bool;
  saveSuccess : bool
}.

Definition mount : editor :=
  {| mode_of := slots; rectangles_slots := []; rectangles_illegal := [];
     currentRect := None; isDrawing := false; isSaving := false;
     saveSuccess := false |}.

(** The elements the handlers reach through their refs. *)
Record image_el : Type := mkImage {
  complete : bool;
  naturalWidth : jsnum;
  naturalHeight : jsnum
}.

Record canvas_el : Type := mkCanvas {
  canvas_width : jsnum;
  canvas_height : jsnum
}.

(** [container.getBoundingClientRect()] *)
Record client_rect : Type := mkClientRect {
  rect_left : jsnum;
  rect_top : jsnum
}.

Record refs : Type := mkRefs {
  canvasRef : option canvas_el;
  imageRef : option image_el;
  containerRef : option client_rect
}.

Record mouse_event : Type := mkMouse {
  clientX : jsnum;
  clientY : jsnum
}.

Inductive effect : Type :=
  | PreventDefault
  | Prompt (message : string)
  | Confirm (message : string)
  | Alert (message : string)
  | PostCalibrate (parking illegal : gmap string (list jsval)).

Definition set_rectangles (st : editor) (m : mode) (l : list rect) : editor :=
  match m with
  | slots =>
      {| mode_of := mode_of st; rectangles_slots := l;
         rectangles_illegal := rectangles_illegal st;
         currentRect := currentRect st; isDrawing := isDrawing st;
         isSaving := isSaving st; saveSuccess := saveSuccess st |}
  | illegal =>
      {| mode_of := mode_of st; rectangles_slots := rectangles_slots st;
         rectangles_illegal := l;
         currentRect := currentRect st; isDrawing := isDrawing st;
         isSaving := isSaving st; saveSuccess := saveSuccess st |}
  end.

Definition rectangles (st : editor) (m : mode) : list rect :=
  match m with
  | slots => rectangles_slots st
  | illegal => rectangles_illegal st
  end.

(** [setIsDrawing(false); setCurrentRect(null)] *)
Definition to_idle (st : editor) : editor :=
  {| mode_of := mode_of st; rectangles_slots := rectangles_slots st;
     rectangles_illegal := rectangles_illegal st;
     currentRect := None; isDrawing := false;
     isSaving := isSaving st; saveSuccess := saveSuccess st |}.

Definition set_drawing (st : editor) (d : drawing) (drawing_now : bool)
  : editor :=
  {| mode_of := mode_of st; rectangles_slots := rectangles_slots st;
     rectangles_illegal := rectangles_illegal st;
     currentRect := Some d; isDrawing := drawing_now;
     isSaving := isSaving st; saveSuccess := saveSuccess st |}.

Definition set_saving (st : editor) (saving ok : bool) : editor :=
  {| mode_of := mode_of st; rectangles_slots := rectangles_slots st;
     rectangles_illegal := rectangles_illegal st;
     currentRect := currentRect st; isDrawing := isDrawing st;
     isSaving := saving; saveSuccess := ok |}.

(** [.filter(Boolean)] on an array of rectangles and [null]s. *)
Definition filter_Boolean {A : Type} (l : list (option A)) : list A :=
  omap (fun o => o) l.

Section Editor.
Context `{JSEngine}.

(** The callback of [Object.entries(...).map(...)] in [loadCalibration]. *)
Definition rect_of_entry (e : string * coords) : option rect :=
  match e.2 with
  | CoordsArray [c0; c1; c2; c3] =>
      Some {| rect_id := e.1;
              rect_x := c0;
              rect_y := c1;
              rect_width := js_sub c2 c0;
              rect_height := js_sub c3 c1 |}
  | _ => None
  end.

Definition load_collection (m : gmap string coords) : list rect :=
  filter_Boolean (map rect_of_entry (map_to_list m)).

(** [response] is [None] when [getCalibration()] rejects or resolves to a
    value without properties: the [catch] logs and the state is kept. *)
Definition loadCalibration (st : editor)
    (response : option calibration_data) : editor :=
  match response with
  | Some data =>
      match parking_slots data, illegal_zones data with
      | Some ps, Some iz =>
          {| mode_of := mode_of st;
             rectangles_slots := load_collection ps;
             rectangles_illegal := load_collection iz;
             currentRect := currentRect st; isDrawing := isDrawing st;
             isSaving := isSaving st; saveSuccess := saveSuccess st |}
      | _, _ => st
      end
  | None => st
  end.

(** A rectangle as [drawCanvas] hands it to the 2D context. *)
Record box : Type := mkBox {
  box_label : string;
  box_x : jsnum;
  box_y : jsnum;
  box_width : jsnum;
  box_height : jsnum
}.

(** The body of [currentList.forEach] in [drawCanvas]. *)
Definition toDisplay (scaleX scaleY : jsnum) (r : rect) : box :=
  {| box_label := rect_id r;
     box_x := js_mul (rect_x r) (JNum scaleX);
     box_y := js_mul (rect_y r) (JNum scaleY);
     box_width := js_mul (rect_width r) (JNum scaleX);
     box_height := js_mul (rect_height r) (JNum scaleY) |}.

(** The stored rectangles [drawCanvas] strokes, in canvas coordinates;
    nothing when an element is missing, the image is not complete or its
    natural size is still zero.  The canvas has been given the size of the
    container before. *)
Definition drawCanvas (st : editor) (r : refs) : list box :=
  match canvasRef r, containerRef r, imageRef r with
  | Some canvas, Some _, Some image =>
      if negb (complete image) then []
      else if num_eq (naturalWidth image) (Fin 0)
              || num_eq (naturalHeight image) (Fin 0) then []
      else
        let scaleX := num_div (canvas_width canvas) (naturalWidth image) in
        let scaleY := num_div (canvas_height canvas) (naturalHeight image) in
        map (toDisplay scaleX scaleY) (rectangles st (mode_of st))
  | _, _, _ => []
  end.

Definition getMousePos (r : refs) (e : mouse_event) : jsnum * jsnum :=
  match canvasRef r, containerRef r with
  | Some _, Some rect =>
      (num_sub (clientX e) (rect_left rect),
       num_sub (clientY e) (rect_top rect))
  | _, _ => (Fin 0, Fin 0)
  end.

Definition handleMouseDown (st : editor) (r : refs) (e : mouse_event)
  : editor * list effect :=
  let pos := getMousePos r e in
  (set_drawing st {| startX := pos.1; startY := pos.2;
                     endX := pos.1; endY := pos.2 |} true,
   [PreventDefault]).

Definition handleMouseMove (st : editor) (r : refs) (e : mouse_event)
  : editor * list effect :=
  match isDrawing st, currentRect st with
  | true, Some cur =>
      let pos := getMousePos r e in
      (set_drawing st {| startX := startX cur; startY := startY cur;
                         endX := pos.1; endY := pos.2 |} (isDrawing st),
       [PreventDefault])
  | _, _ => (st, [])
  end.

(** [onMouseLeave] *)
Definition handleMouseLeave (st : editor) : editor := to_idle st.

(** The conversion of canvas corners to an image rectangle in
    [handleMouseUp]. *)
Definition toNative (scaleX scaleY : jsnum)
    (x1Canvas y1Canvas x2Canvas y2Canvas : jsnum) (id : string) : rect :=
  let x1 := num_mul x1Canvas scaleX in
  let y1 := num_mul y1Canvas scaleY in
  let x2 := num_mul x2Canvas scaleX in
  let y2 := num_mul y2Canvas scaleY in
  {| rect_id := id;
     rect_x := JNum x1;
     rect_y := JNum y1;
     rect_width := JNum (num_sub x2 x1);
     rect_height := JNum (num_sub y2 y1) |}.

Definition prompt_message (m : mode) : string :=
  "Enter " ++ (match m with slots => "slot" | illegal => "zone" end)
  ++ " ID:".

(** [answer] is what [prompt] would return if it were called: [None] for
    a cancelled dialog. *)
Definition handleMouseUp (st : editor) (r : refs) (e : mouse_event)
    (answer : option string) : editor * list effect :=
  match isDrawing st, currentRect st with
  | true, Some cur =>
      match canvasRef r, imageRef r with
      | Some canvas, Some image =>
          if negb (complete image) then (to_idle st, [PreventDefault])
          else
            let pos := getMousePos r e in
            let x1Canvas := Math_min (startX cur) pos.1 in
            let y1Canvas := Math_min (startY cur) pos.2 in
            let x2Canvas := Math_max (startX cur) pos.1 in
            let y2Canvas := Math_max (startY cur) pos.2 in
            let scaleX := num_div (naturalWidth image) (canvas_width canvas) in
            let scaleY :=
              num_div (naturalHeight image) (canvas_height canvas) in
            if num_gt (num_sub x2Canvas x1Canvas) (Fin 20)
               && num_gt (num_sub y2Canvas y1Canvas) (Fin 20)
            then
              let m := mode_of st in
              let st' :=
                match answer with
                | Some id =>
                    if negb (String.eqb id "")
                       && negb (String.eqb (trim id) "")
                    then
                      set_rectangles st m
                        (rectangles st m ++
                         [toNative scaleX scaleY
                            x1Canvas y1Canvas x2Canvas y2Canvas (trim id)])
                    else st
                | None => st
                end in
              (to_idle st', [PreventDefault; Prompt (prompt_message m)])
            else (to_idle st, [PreventDefault])
      | _, _ => (to_idle st, [PreventDefault])
      end
  | _, _ => (st, [])
  end.

(** [confirmed] is the answer of [window.confirm]. *)
Definition handleDelete (st : editor) (index : nat) (confirmed : bool)
  : editor * list effect :=
  let m := mode_of st in
  let question :=
    "Delete this " ++ (match m with slots => "slot" | illegal => "zone" end)
    ++ "?" in
  (if confirmed
   then set_rectangles st m
          (map snd (List.filter (fun ir => negb (Nat.eqb ir.1 index))
                      (combine (seq 0 (length (rectangles st m)))
                               (rectangles st m))))
   else st,
   [Confirm question]).

(** The four numbers stored for a rectangle by [handleSave]. *)
Definition corners (r : rect) : list jsval :=
  [ js_round (rect_x r);
    js_round (rect_y r);
    js_round (js_add (rect_x r) (rect_width r));
    js_round (js_add (rect_y r) (rect_height r)) ].

(** One of the two [forEach] loops of [handleSave]: each rectangle is
    stored under its id, a later one replacing an earlier one. *)
Definition serialize (l : list rect) : gmap string (list jsval) :=
  foldl (fun acc r => <[ rect_id r := corners r ]> acc) ∅ l.

(** [calibrationData] as [handleSave] builds it. *)
Definition calibrationData (st : editor)
  : gmap string (list jsval) * gmap string (list jsval) :=
  (serialize (rectangles_slots st), serialize (rectangles_illegal st)).

(** [accepted] tells whether [calibrate] resolved; the timer that clears
    the success flag three seconds later is not represented. *)
Definition handleSave (st : editor) (accepted : bool)
  : editor * list effect :=
  let body := calibrationData st in
  if accepted
  then (set_saving st false true, [PostCalibrate body.1 body.2])
  else (set_saving st false false,
        [PostCalibrate body.1 body.2;
         Alert "Failed to save calibration. Please try again."]).

End Editor.

End Calibration.

(** ** Plate masking

    Source: [maskPlate] in [src/unnamed/part_003] (violations table) and,
    with the same text, in [src/unnamed/part_004] (event log). *)

Module Plates.

Section Mask.
Context `{JSEngine}.

(** [maskPlate(plate)]; [None] when [plate.toUpperCase] is not a function
    because [plate] is a truthy value that is not a string. *)
Definition maskPlate (plate : jsval) : option string :=
  if negb (truthy plate) then Some "N/A"
  else
    match plate with
    | JStr p =>
        let plateUpper := toUpperCase p in
        if includes plateUpper "GOVT" || includes plateUpper "ROYAL"
        then Some "***ANONYMIZED***"
        else Some p
    | _ => None
    end.

End Mask.

End Plates.

(** ** The live-feed overlay

    Source: [drawOverlay] in
    [src/druk_park/frontend/src/components/LiveFeed.js]. *)

Module LiveFeed.

(** [slotStates && slotStates[slotId]] *)
Definition slot_state (slotStates : option (gmap string jsval))
    (slotId : string) : jsval :=
  match slotStates with
  | Some m => default JUndef (m !! slotId)
  | None => JUndef
  end.

(** [state === 'OCCUPIED' || state === 'occupied' || state === 'OCCUPY'] *)
Definition occupied (state : jsval) : bool :=
  strict_eq state (JStr "OCCUPIED")
  || strict_eq state (JStr "occupied")
  || strict_eq state (JStr "OCCUPY").

End LiveFeed.

(** ** More built-ins *)

Module Builtins.

(** [a <= b] on numbers: false as soon as one side is [NaN]. *)
Definition num_le (a b : jsnum) : bool :=
  match a, b with
  | NaN, _ | _, NaN => false
  | _, _ => negb (num_lt b a)
  end.

(** [array.slice(start, end)] for integer arguments: a negative index
    counts from the end, and both are clamped to the array. *)
Definition slice {A : Type} (l : list A) (first last : Z) : list A :=
  let len := Z.of_nat (length l) in
  let k := if first <? 0 then Z.max (len + first) 0 else Z.min first len in
  let final := if last <? 0 then Z.max (len + last) 0 else Z.min last len in
  take (Z.to_nat (Z.max (final - k) 0)) (drop (Z.to_nat k) l).

End Builtins.

(** ** The notification list

    Source: [addNotification] and [removeNotification] in
    [src/unnamed/part_000]. *)

Module Notifications.

Record notification : Type := mkNotification {
  n_id : jsnum;
  n_type : Provider.ntype;
  n_message : string;
  n_data : Provider.ndata;
  n_timestamp : Q
}.

(** [addNotification({type, message, data})], where [now] is what
    [Date.now()] returns, [random] what [Math.random()] returns and [created]
    the time of [new Date()]: the list with the notification in front, and
    the id, which is also the id the ten-second timer will remove. *)
Definition addNotification (now random created : Q) (req : Provider.request)
    (notifications : list notification) : list notification * jsnum :=
  let id := num_add (Fin now) (Fin random) in
  ({| n_id := id;
      n_type := Provider.req_type req;
      n_message := Provider.req_message req;
      n_data := Provider.req_data req;
      n_timestamp := created |} :: notifications,
   id).

(** The callback of the timer: [prev.filter(n => n.id !== id)]. *)
Definition expire (id : jsnum) (notifications : list notification)
  : list notification :=
  List.filter (fun n => negb (num_eq (n_id n) id)) notifications.

(** [removeNotification(id)] *)
Definition removeNotification (id : jsnum)
    (notifications : list notification) : list notification :=
  List.filter (fun notification => negb (num_eq (n_id notification) id))
    notifications.

End Notifications.

(** ** The notification panel

    Source: the violation summary of [NotificationCenter] in
    [src/unnamed/part_003]. *)

Module Panel.

Record violationSummary : Type := mkSummary {
  totalActive : Z;
  byZone : gmap string Z
}.

Section Summary.
Context `{JSEngine}.

(** [v.zone || 'Unknown Zone'], as the property key it is used for. *)
Definition zone_of (v : Provider.violation) : string :=
  ToString (js_or (Provider.v_zone v) (JStr "Unknown Zone")).

(** [byZone[zone] = (byZone[zone] || 0) + 1] *)
Definition count_zone (byZone : gmap string Z) (v : Provider.violation)
  : gmap string Z :=
  let zone := zone_of v in
  <[ zone := match byZone !! zone with
             | Some n => if n =? 0 then 0 else n
             | None => 0
             end + 1 ]> byZone.

Definition summarize (activeViolations : list Provider.violation)
  : violationSummary :=
  {| totalActive := Z.of_nat (length activeViolations);
     byZone := foldl count_zone ∅ activeViolations |}.

End Summary.

End Panel.

(** ** The dashboard

    Source: [getColorForStatus] and [checkForNotifications] in
    [src/unnamed/part_002]. *)

Module Dashboard.

(** The fields of [/dashboard/stats] that [checkForNotifications] reads: a
    number, or [None] when the field is absent or [null]. *)
Record stats : Type := mkStats {
  occupancy : option jsnum;
  activeViolations : option jsnum
}.

(** [field || 0] *)
Definition or_zero (field : option jsnum) : jsnum :=
  match field with
  | Some n => if truthy (JNum n) then n else Fin 0
  | None => Fin 0
  end.

(** [a >= b] on numbers. *)
Definition num_ge (a b : jsnum) : bool := Builtins.num_le b a.

(** One constructor for each call of [addNotification] in
    [checkForNotifications]. *)
Inductive alert : Type :=
  | HighOccupancy (currentOccupancy : jsnum)
  | Normalized (currentOccupancy : jsnum)
  | NewViolations (newViolations currentViolations : jsnum)
  | Resolved (resolvedViolations currentViolations : jsnum)
  | Critical (currentOccupancy : jsnum).

(** What is handed to [addNotification], the timestamp left out. *)
Record banner : Type := mkBanner {
  b_type : Provider.ntype;
  b_message : string
}.

(** The calls [checkForNotifications] makes, in order. *)
Definition alerts (currentStats prevStats : stats) : list alert :=
  let currentOccupancy := or_zero (occupancy currentStats) in
  let prevOccupancy := or_zero (occupancy prevStats) in
  let currentViolations := or_zero (activeViolations currentStats) in
  let prevViolations := or_zero (activeViolations prevStats) in
  ((if num_gt currentOccupancy (Fin 85)
       && Builtins.num_le prevOccupancy (Fin 85)
    then [HighOccupancy currentOccupancy] else [])
   ++ (if Builtins.num_le currentOccupancy (Fin 85)
          && num_gt prevOccupancy (Fin 85)
       then [Normalized currentOccupancy] else [])
   ++ (if num_gt currentViolations prevViolations
       then [NewViolations (num_sub currentViolations prevViolations)
               currentViolations]
       else [])
   ++ (if num_lt currentViolations prevViolations
          && num_ge currentViolations (Fin 0)
       then [Resolved (num_sub prevViolations currentViolations)
               currentViolations]
       else [])
   ++ (if num_gt currentOccupancy (Fin 95)
          && Builtins.num_le prevOccupancy (Fin 95)
       then [Critical currentOccupancy] else []))%list.

Section Alerts.
Context `{JSEngine}.

(** [getColorForStatus(status)]; [None] when [status.toUpperCase] is not a
    function. *)
Definition getColorForStatus (status : jsval) : option string :=
  let pick (statusUpper : string) : string :=
    if String.eqb statusUpper "OCCUPIED" then "#EF4444"
    else if String.eqb statusUpper "ILLEGAL_ZONE" then "#F97316"
    else if String.eqb statusUpper "ILLEGAL_OCCUPIED" then "#991B1B"
    else "#22C55E" in
  if truthy status
  then match status with
       | JStr s => Some (pick (toUpperCase s))
       | _ => None
       end
  else Some (pick "AVAILABLE").

(** [slot.status ? slot.status.toUpperCase() : 'AVAILABLE'], the status
    [loadDashboardData] stores for a slot; [None] when [toUpperCase] is not
    a function. *)
Definition statusOf (status : jsval) : option string :=
  if truthy status
  then match status with
       | JStr s => Some (toUpperCase s)
       | _ => None
       end
  else Some "AVAILABLE".

(** [`violation${count > 1 ? 's' : ''}`] *)
Definition plural (count : jsnum) : string :=
  "violation" ++ (if num_gt count (Fin 1) then "s" else "").

Definition render (a : alert) : banner :=
  match a with
  | HighOccupancy occ =>
      {| b_type := Provider.warning;
         b_message := "High Occupancy Alert: " ++ toFixed occ 1
                      ++ "% of parking slots are now occupied" |}
  | Normalized occ =>
      {| b_type := Provider.success;
         b_message := "Occupancy normalized: " ++ toFixed occ 1
                      ++ "% - parking availability improved" |}
  | NewViolations n total =>
      {| b_type := Provider.illegal_parking;
         b_message := NumberToString n ++ " new " ++ plural n
                      ++ " detected! Total active: " ++ NumberToString total |}
  | Resolved n total =>
      {| b_type := Provider.success;
         b_message := NumberToString n ++ " " ++ plural n
                      ++ " resolved. Active violations: "
                      ++ NumberToString total |}
  | Critical occ =>
      {| b_type := Provider.illegal_parking;
         b_message := "CRITICAL: Parking lot nearly full at "
                      ++ toFixed occ 1 ++ "%!" |}
  end.

Definition checkForNotifications (currentStats prevStats : stats)
  : list banner :=
  map render (alerts currentStats prevStats).

End Alerts.

End Dashboard.

(** ** The slot card

    Source: [statusConfig] in
    [src/druk_park/frontend/src/components/SlotCard.js]. *)

Module SlotCard.

Record config : Type := mkConfig {
  label : string;
  icon : string;
  borderColor : string;
  bgColor : string
}.

Definition statusConfig : list (string * config) :=
  [ ("AVAILABLE",
     {| label := "Available"; icon := "✓";
        borderColor := "#22C55E"; bgColor := "#f0fdf4" |});
    ("OCCUPIED",
     {| label := "Occupied"; icon := "●";
        borderColor := "#EF4444"; bgColor := "#fef2f2" |});
    ("ILLEGAL_ZONE",
     {| label := "No-Parking Zone"; icon := "⊗";
        borderColor := "#F97316"; bgColor := "#fff7ed" |});
    ("ILLEGAL_OCCUPIED",
     {| label := "Illegal Parking"; icon := "⚠";
        borderColor := "#991B1B"; bgColor := "#7f1d1d" |}) ].

(** [statusConfig[status]] *)
Fixpoint property (table : list (string * config)) (key : string)
  : option config :=
  match table with
  | [] => None
  | (k, c) :: rest => if String.eqb k key then Some c else property rest key
  end.

Definition available : config :=
  {| label := "Available"; icon := "✓";
     borderColor := "#22C55E"; bgColor := "#f0fdf4" |}.

(** [statusConfig[status] || statusConfig['AVAILABLE']] *)
Definition config_of (status : string) : config :=
  match property statusConfig status with
  | Some c => c
  | None => default available (property statusConfig "AVAILABLE")
  end.

(** [color || config.borderColor], the colour of the left border; an absent
    [color] is [None]. *)
Definition border (color : option string) (status : string) : string :=
  match color with
  | Some c => if String.eqb c "" then borderColor (config_of status) else c
  | None => borderColor (config_of status)
  end.

End SlotCard.

(** ** The event log

    Source: the pagination of [IMEMTable] in [src/unnamed/part_004]. *)

Module EventLog.

(** The values the page-size selector offers; the state starts at 10. *)
Inductive page_size : Type :=
  | Ten
  | TwentyFive
  | Fifty.

Definition rows_per_page (ps : page_size) : Z :=
  match ps with
  | Ten => 10
  | TwentyFive => 25
  | Fifty => 50
  end.

(** [Math.ceil(filteredAndSortedData.length / pageSize)] *)
Definition totalPages {A : Type} (rows : list A) (pageSize : page_size) : Z :=
  Qceiling (inject_Z (Z.of_nat (length rows))
            / inject_Z (rows_per_page pageSize)).

(** [filteredAndSortedData.slice((currentPage - 1) * pageSize,
    currentPage * pageSize)] *)
Definition paginatedData {A : Type} (rows : list A) (currentPage : Z)
    (pageSize : page_size) : list A :=
  Builtins.slice rows ((currentPage - 1) * rows_per_page pageSize)
    (currentPage * rows_per_page pageSize).

(** The updater of the Previous button: [p => Math.max(1, p - 1)]. *)
Definition previousPage (p : Z) : Z := Z.max 1 (p - 1).

(** The updater of the Next button: [p => Math.min(totalPages, p + 1)]. *)
Definition nextPage (total p : Z) : Z := Z.min total (p + 1).

(** [disabled={currentPage === 1}] and
    [disabled={currentPage === totalPages}] of the two buttons. *)
Definition previousDisabled (p : Z) : bool := p =? 1.
Definition nextDisabled (total p : Z) : bool := p =? total.

(** The two numbers of the caption, "a to b of n results". *)
Definition showing {A : Type} (rows : list A) (currentPage : Z)
    (pageSize : page_size) : Z * Z :=
  ((currentPage - 1) * rows_per_page pageSize + 1,
   Z.min (currentPage * rows_per_page pageSize) (Z.of_nat (length rows))).

End EventLog.

(** ** The overlay of the live feed: geometry and violations

    Source: [drawOverlay] in
    [src/druk_park/frontend/src/components/LiveFeed.js]. *)

Module Overlay.

Record img : Type := mkImg {
  naturalWidth : jsnum;
  naturalHeight : jsnum;
  width : jsnum;
  height : jsnum;
  clientWidth : jsnum;
  clientHeight : jsnum
}.

(** [a || b] on numbers. *)
Definition or_num (a b : jsnum) : jsnum := if truthy (JNum a) then a else b.

(** [img.naturalWidth || img.width || 1280] *)
Definition naturalW (i : img) : jsnum :=
  or_num (or_num (naturalWidth i) (width i)) (Fin 1280).

(** [img.naturalHeight || img.height || 720] *)
Definition naturalH (i : img) : jsnum :=
  or_num (or_num (naturalHeight i) (height i)) (Fin 720).

Definition scaleX (i : img) : jsnum := num_div (clientWidth i) (naturalW i).
Definition scaleY (i : img) : jsnum := num_div (clientHeight i) (naturalH i).

(** A rectangle as [drawOverlay] strokes it. *)
Record frame : Type := mkFrame {
  f_label : string;
  f_marked : bool;
  f_x : jsnum;
  f_y : jsnum;
  f_width : jsnum;
  f_height : jsnum
}.

(** [v.zone === zoneId || v.zone?.includes(zoneId)]; [None] when
    [v.zone.includes] is not a function. *)
Definition in_zone (zone : jsval) (zoneId : string) : option bool :=
  if strict_eq zone (JStr zoneId) then Some true
  else match zone with
       | JUndef | JNull => Some false
       | JStr z => Some (includes z zoneId)
       | JBool _ | JNum _ => None
       end.

(** [activeViolations.some(v => ...)] *)
Fixpoint hasViolation (activeViolations : list Provider.violation)
    (zoneId : string) : option bool :=
  match activeViolations with
  | [] => Some false
  | v :: rest =>
      match in_zone (Provider.v_zone v) zoneId with
      | None => None
      | Some true => Some true
      | Some false => hasViolation rest zoneId
      end
  end.

Section Frames.
Context `{JSEngine}.

(** [const [x1, y1, x2, y2] = coords] and the four rounded numbers. *)
Definition place (sx sy : jsnum) (coords : list jsval)
  : jsnum * jsnum * jsnum * jsnum :=
  let x1 := nth 0 coords JUndef in
  let y1 := nth 1 coords JUndef in
  let x2 := nth 2 coords JUndef in
  let y2 := nth 3 coords JUndef in
  (Math_round (js_mul x1 (JNum sx)),
   Math_round (js_mul y1 (JNum sy)),
   Math_round (js_mul (js_sub x2 x1) (JNum sx)),
   Math_round (js_mul (js_sub y2 y1) (JNum sy))).

(** The body of the loop over [calibratedSlots]. *)
Definition slot_frame (i : img) (slotStates : option (gmap string jsval))
    (entry : string * list jsval) : frame :=
  let '(x, y, w, h) := place (scaleX i) (scaleY i) entry.2 in
  let occupied := LiveFeed.occupied (LiveFeed.slot_state slotStates entry.1) in
  {| f_label := entry.1 ++ " " ++ (if occupied then "🅿️" else "✓");
     f_marked := occupied;
     f_x := x; f_y := y; f_width := w; f_height := h |}.

(** The slot rectangles [drawOverlay] strokes; none while the image or the
    canvas is missing or no calibration has been loaded. *)
Definition drawOverlay_slots (image : option img) (canvas : bool)
    (calibratedSlots : option (gmap string (list jsval)))
    (slotStates : option (gmap string jsval)) : list frame :=
  match image, canvas, calibratedSlots with
  | Some i, true, Some slots => map (slot_frame i slotStates) (map_to_list slots)
  | _, _, _ => []
  end.

(** The loop over [illegalZones]; [None] when [hasViolation] throws. *)
Fixpoint zone_frames (i : img) (activeViolations : list Provider.violation)
    (entries : list (string * list jsval)) : option (list frame) :=
  match entries with
  | [] => Some []
  | (zoneId, coords) :: rest =>
      match hasViolation activeViolations zoneId with
      | None => None
      | Some violated =>
          let '(x, y, w, h) := place (scaleX i) (scaleY i) coords in
          match zone_frames i activeViolations rest with
          | None => None
          | Some more =>
              Some ({| f_label := "⚠️ " ++ zoneId
                                  ++ (if violated then " [VIOLATION]" else "");
                       f_marked := violated;
                       f_x := x; f_y := y; f_width := w; f_height := h |}
                    :: more)
          end
      end
  end.

(** The zone rectangles [drawOverlay] strokes; [None] when the loop throws. *)
Definition drawOverlay_zones (image : option img) (canvas : bool)
    (illegalZones : option (gmap string (list jsval)))
    (activeViolations : list Provider.violation) : option (list frame) :=
  match image, canvas, illegalZones with
  | Some i, true, Some zones =>
      zone_frames i activeViolations (map_to_list zones)
  | _, _, _ => Some []
  end.

End Frames.

End Overlay.

(** ** The navigation bar

    Source: [navItems] and [isActive] in
    [src/druk_park/frontend/src/components/TopNav.js]. *)

Module TopNav.

Definition navItems : list (string * string) :=
  [ ("/", "Home");
    ("/analytics", "Analytics");
    ("/imem", "IMEM Table");
    ("/calibration", "Calibration") ].

(** [isActive(path)] for the current [location.pathname]. *)
Definition isActive (pathname path : string) : bool :=
  if String.eqb path "/" then String.eqb pathname "/"
  else startsWith pathname path.

End TopNav.

(** * Vocabulary of the properties *)

(** ** Strings *)

(** [needle] occurs in [s]: some text before it, some text after it. *)
Definition occurs (needle s : string) : Prop :=
  exists before after : string, s = before ++ needle ++ after.

(** ** Slot statistics *)

(** The decimal numeral of [n] tenths: ["12.5"] for [125]. *)
Definition tenths (n : N) : string := digits (n / 10) ++ "." ++ digits (n mod 10).

(** The slots of a dictionary whose occupancy flag is truthy. *)
Definition occupied_slots (m : gmap string Provider.slot)
  : gmap string Provider.slot :=
  filter (fun kv => truthy (Provider.slot_isOccupied kv.2) = true) m.

(** The provider whose live dictionary is [m]. *)
Definition holding (m : gmap string Provider.slot) (st : Provider.provider)
  : Provider.provider :=
  {| Provider.slotStatus := Some <$> m;
     Provider.activeViolations := Provider.activeViolations st;
     Provider.prevSlotsRef := Provider.prevSlotsRef st;
     Provider.prevViolationsRef := Provider.prevViolationsRef st |}.

(** The integer nearest to [1000 * occ / tot], a tie going up. *)
Definition nearest_tenths (occ tot : Z) : Z := (2000 * occ + tot) / (2 * tot).

(** A bare slot record carrying only an occupancy flag. *)
Definition flagged (flag : jsval) : Provider.slot :=
  {| Provider.slot_id := JUndef; Provider.slot_slotId := JUndef;
     Provider.slot_isOccupied := flag; Provider.slot_status := JUndef;
     Provider.slot_name := JUndef; Provider.slot_plate := JUndef |}.

(** ** Status normalization *)

(** A slot record carrying only a status string. *)
Definition with_status (status : string) : Provider.slot :=
  {| Provider.slot_id := JUndef; Provider.slot_slotId := JUndef;
     Provider.slot_isOccupied := JUndef; Provider.slot_status := JStr status;
     Provider.slot_name := JUndef; Provider.slot_plate := JUndef |}.

(** ** Slot transitions *)

Definition is_record (kv : string * Provider.slotval) : bool :=
  match kv.2 with
  | Some _ => true
  | None => false
  end.

(** No key of the dictionary is bound to [null]. *)
Definition all_records (m : gmap string Provider.slotval) : bool :=
  forallb is_record (map_to_list m).

(** The number of requests of type [t] that the flags of a slot call for. *)
Definition expected (t : Provider.ntype) (before now : Provider.slot) : nat :=
  let was := truthy (Provider.slot_isOccupied before) in
  let is_now := truthy (Provider.slot_isOccupied now) in
  match t with
  | Provider.slot_occupied => if negb was && is_now then 1 else 0
  | Provider.slot_available => if was && negb is_now then 1 else 0
  | _ => 0
  end.

Definition expected_for (t : Provider.ntype)
    (prev : gmap string Provider.slotval) (k : string) (now : Provider.slot)
  : nat :=
  match prev !! k with
  | Some (Some before) => expected t before now
  | _ => 0%nat
  end.

(** A record of the [/slots] array. *)
Definition slot_of (id : string) (flag status : jsval) : Provider.slot :=
  {| Provider.slot_id := JStr id; Provider.slot_slotId := JUndef;
     Provider.slot_isOccupied := flag; Provider.slot_status := status;
     Provider.slot_name := JUndef; Provider.slot_plate := JUndef |}.

(** The provider after a first poll that saw slot A free. *)
Definition saw_A_free : Provider.provider :=
  Provider.final
    (Provider.checkSlotChanges Provider.initial
       (Provider.SlotsArray [slot_of "A" (JBool false) JUndef])).

(** ** New violations *)

(** The violation has an id: the field is present and is neither [null] nor
    [NaN] (which no JSON payload holds). *)
Definition carries_id (v : Provider.violation) : bool :=
  match Provider.v_id v with
  | JUndef | JNull | JNum NaN => false
  | _ => true
  end.

Definition share_id (a b : Provider.violation) : Prop :=
  carries_id a = true /\ carries_id b = true /\
  strict_eq (Provider.v_id a) (Provider.v_id b) = true.

Definition same_plate_and_time (a b : Provider.violation) : Prop :=
  strict_eq (Provider.v_license_plate a) (Provider.v_license_plate b) = true /\
  strict_eq (Provider.v_timestamp a) (Provider.v_timestamp b) = true.

(** Two violations with ids match when they share the id, or when plate and
    timestamp both agree. *)
Definition same_entity (a b : Provider.violation) : Prop :=
  share_id a b \/ same_plate_and_time a b.

Definition known (prev : list Provider.violation) (v : Provider.violation)
  : Prop :=
  exists p, p ∈ prev /\ same_entity p v.

(** One request for each new violation, in order, and none for a known
    one. *)
Inductive reports `{JSEngine} (prev : list Provider.violation)
  : list Provider.violation -> list Provider.request -> Prop :=
  | reports_done : reports prev [] []
  | reports_new (v : Provider.violation) (rest : list Provider.violation)
      (rs : list Provider.request) :
      ~ known prev v -> reports prev rest rs ->
      reports prev (v :: rest) (Provider.violation_request v :: rs)
  | reports_known (v : Provider.violation) (rest : list Provider.violation)
      (rs : list Provider.request) :
      known prev v -> reports prev rest rs ->
      reports prev (v :: rest) rs.

Definition violation_of (id : jsval) (plate zone time : string)
  : Provider.violation :=
  {| Provider.v_id := id; Provider.v_license_plate := JStr plate;
     Provider.v_zone := JStr zone; Provider.v_timestamp := JStr time |}.

(** The provider after a poll that saw one violation. *)
Definition saw_v1 : Provider.provider :=
  Provider.final
    (Provider.checkViolationChanges Provider.initial
       (Some [violation_of (JStr "v1") "BP-1-A1234" "Z1" "10:00"])).

(** ** Loading and saving a calibration *)

(** What [loadCalibration] makes of a collection [m]: the rectangles are
    those of the entries that are arrays of four members, one per id. *)
Definition kept `{JSEngine} (m : gmap string Calibration.coords)
    (l : list Calibration.rect) : Prop :=
  NoDup (Calibration.rect_id <$> l) /\
  forall r : Calibration.rect,
    r ∈ l <->
    exists c0 c1 c2 c3 : jsval,
      m !! Calibration.rect_id r = Some (Calibration.CoordsArray [c0; c1; c2; c3])
      /\ r = {| Calibration.rect_id := Calibration.rect_id r;
                Calibration.rect_x := c0;
                Calibration.rect_y := c1;
                Calibration.rect_width := js_sub c2 c0;
                Calibration.rect_height := js_sub c3 c1 |}.

Definition number (z : Z) : jsval := JNum (num_of_Z z).

(** *** Round trip *)

Definition tuple (t : Z * Z * Z * Z) : list jsval :=
  let '(x1, y1, x2, y2) := t in [number x1; number y1; number x2; number y2].


(** ** Completing a rectangle *)

(** Equality of numbers as rationals. *)
Definition num_equiv (a b : jsnum) : Prop :=
  match a, b with
  | Fin x, Fin y => (x == y)%Q
  | NaN, NaN | PInf, PInf | NInf, NInf => True
  | _, _ => False
  end.

Definition val_equiv (a b : jsval) : Prop :=
  match a, b with
  | JNum x, JNum y => num_equiv x y
  | _, _ => a = b
  end.

Definition rect_equiv (a b : Calibration.rect) : Prop :=
  Calibration.rect_id a = Calibration.rect_id b /\
  val_equiv (Calibration.rect_x a) (Calibration.rect_x b) /\
  val_equiv (Calibration.rect_y a) (Calibration.rect_y b) /\
  val_equiv (Calibration.rect_width a) (Calibration.rect_width b) /\
  val_equiv (Calibration.rect_height a) (Calibration.rect_height b).

Definition rect_of (id : string) (x y w h : Q) : Calibration.rect :=
  {| Calibration.rect_id := id;
     Calibration.rect_x := JNum (Fin x);
     Calibration.rect_y := JNum (Fin y);
     Calibration.rect_width := JNum (Fin w);
     Calibration.rect_height := JNum (Fin h) |}.

Definition other (m : Calibration.mode) : Calibration.mode :=
  match m with
  | Calibration.slots => Calibration.illegal
  | Calibration.illegal => Calibration.slots
  end.

(** The canvas and the image, when both are there and the image has
    finished loading. *)
Definition ready (r : Calibration.refs)
  : option (Calibration.canvas_el * Calibration.image_el) :=
  match Calibration.canvasRef r, Calibration.imageRef r with
  | Some canvas, Some image =>
      if Calibration.complete image then Some (canvas, image) else None
  | _, _ => None
  end.

(** The id the operator supplied: the trimmed answer, when the answer and
    its trimmed form are both non-empty. *)
Definition supplied_id `{JSEngine} (answer : option string) : option string :=
  match answer with
  | Some id =>
      if negb (String.eqb id "") && negb (String.eqb (trim id) "")
      then Some (trim id) else None
  | None => None
  end.

(** An editor in the middle of a drag that started at [(x, y)]. *)
Definition dragging_from (x y : Z) : Calibration.editor :=
  {| Calibration.mode_of := Calibration.slots;
     Calibration.rectangles_slots := [];
     Calibration.rectangles_illegal := [];
     Calibration.currentRect :=
       Some {| Calibration.startX := num_of_Z x;
               Calibration.startY := num_of_Z y;
               Calibration.endX := num_of_Z x;
               Calibration.endY := num_of_Z y |};
     Calibration.isDrawing := true;
     Calibration.isSaving := false;
     Calibration.saveSuccess := false |}.

(** A canvas of 800 by 450 over an image of 1600 by 900, the container at
    the origin of the viewport. *)
Definition page : Calibration.refs :=
  {| Calibration.canvasRef :=
       Some {| Calibration.canvas_width := num_of_Z 800;
               Calibration.canvas_height := num_of_Z 450 |};
     Calibration.imageRef :=
       Some {| Calibration.complete := true;
               Calibration.naturalWidth := num_of_Z 1600;
               Calibration.naturalHeight := num_of_Z 900 |};
     Calibration.containerRef :=
       Some {| Calibration.rect_left := num_of_Z 0;
               Calibration.rect_top := num_of_Z 0 |} |}.

Definition mouse_at (x y : Z) : Calibration.mouse_event :=
  {| Calibration.clientX := num_of_Z x; Calibration.clientY := num_of_Z y |}.

(** ** Coordinate transform *)


(** ** The notification list *)

(** A notification with the given id. *)
Definition note (id : Z) (message : string) : Notifications.notification :=
  {| Notifications.n_id := num_of_Z id;
     Notifications.n_type := Provider.warning;
     Notifications.n_message := message;
     Notifications.n_data := Provider.SlotAvailableData "" JUndef "";
     Notifications.n_timestamp := 0 |}.

(** ** Quiet polls *)

(** The id of the violation is not [NaN]. *)
Definition id_is_not_NaN (v : Provider.violation) : bool :=
  match Provider.v_id v with
  | JNum NaN => false
  | _ => true
  end.

(** ** The notification panel *)

(** The number of violations filed under zone [z]. *)
Definition filed_under `{JSEngine} (z : string)
    (l : list Provider.violation) : Z :=
  Z.of_nat (length (filter (fun v => Panel.zone_of v = z) l)).


(** ** The editor under a sequence of pointer events *)

(** A pointer event on the canvas, with the elements the refs reach when it
    arrives; a pointer-up carries what the operator would answer to the
    prompt. *)
Inductive pointer : Type :=
  | PointerDown (r : Calibration.refs) (e : Calibration.mouse_event)
  | PointerMove (r : Calibration.refs) (e : Calibration.mouse_event)
  | PointerUp (r : Calibration.refs) (e : Calibration.mouse_event)
      (answer : option string)
  | PointerLeave.

Definition handle `{JSEngine} (st : Calibration.editor) (p : pointer)
  : Calibration.editor :=
  match p with
  | PointerDown r e => (Calibration.handleMouseDown st r e).1
  | PointerMove r e => (Calibration.handleMouseMove st r e).1
  | PointerUp r e answer => (Calibration.handleMouseUp st r e answer).1
  | PointerLeave => Calibration.handleMouseLeave st
  end.

Definition is_move (p : pointer) : bool :=
  match p with
  | PointerMove _ _ => true
  | _ => false
  end.






(** ** Alerts of the dashboard *)

Inductive kind : Type :=
  | KHighOccupancy
  | KNormalized
  | KNewViolations
  | KResolved
  | KCritical.

#[local] Instance kind_eq_dec : EqDecision kind.
Proof. solve_decision. Defined.

Definition kind_of (a : Dashboard.alert) : kind :=
  match a with
  | Dashboard.HighOccupancy _ => KHighOccupancy
  | Dashboard.Normalized _ => KNormalized
  | Dashboard.NewViolations _ _ => KNewViolations
  | Dashboard.Resolved _ _ => KResolved
  | Dashboard.Critical _ => KCritical
  end.

(** How many alerts of kind [k] a list holds. *)
Definition raised (k : kind) (l : list Dashboard.alert) : nat :=
  length (filter (fun a => kind_of a = k) l).

(** The occupancy a reading stands for is above 85. *)
Definition high (s : Dashboard.stats) : bool :=
  num_gt (Dashboard.or_zero (Dashboard.occupancy s)) (Fin 85).

(** The alerts of successive calls along a series of readings, each call
    being given the reading before as [prevStats]. *)
Fixpoint along (prev : Dashboard.stats) (readings : list Dashboard.stats)
  : list Dashboard.alert :=
  match readings with
  | [] => []
  | s :: rest => (Dashboard.alerts s prev ++ along s rest)%list
  end.




Definition reading (occupancy violations : Z) : Dashboard.stats :=
  {| Dashboard.occupancy := Some (num_of_Z occupancy);
     Dashboard.activeViolations := Some (num_of_Z violations) |}.

(** ** Pages of the event log *)

(** The pages 1, ..., [totalPages], one after the other. *)
Definition pages {A : Type} (rows : list A) (pageSize : EventLog.page_size)
  : list (list A) :=
  (fun p => EventLog.paginatedData rows (Z.of_nat p) pageSize)
    <$> seq 1 (Z.to_nat (EventLog.totalPages rows pageSize)).

(** ** The overlay *)

(** A zone field that is absent or a string. *)
Definition textual (v : jsval) : Prop :=
  match v with
  | JBool _ | JNum _ => False
  | _ => True
  end.

Definition parked_in (zone : string) : Provider.violation :=
  {| Provider.v_id := JUndef; Provider.v_license_plate := JUndef;
     Provider.v_zone := JStr zone; Provider.v_timestamp := JUndef |}.

(** Where a frame of the overlay lies. *)
Definition geometry (f : Overlay.frame) : jsnum * jsnum * jsnum * jsnum :=
  (Overlay.f_x f, Overlay.f_y f, Overlay.f_width f, Overlay.f_height f).

(** Where a box of the editor lies, to the nearest pixel. *)
Definition rounded (b : Calibration.box) : jsnum * jsnum * jsnum * jsnum :=
  (Math_round (Calibration.box_x b), Math_round (Calibration.box_y b),
   Math_round (Calibration.box_width b),
   Math_round (Calibration.box_height b)).

(** * Properties *)

(** ** Strings *)

Lemma startsWith_spec (s p : string) :
  startsWith s p = true <-> exists after : string, s = p ++ after.
Proof.
  revert s; induction p as [|a p IH]; intros s; simpl.
  - split; [intros _; exists s; reflexivity | reflexivity].
  - destruct s as [|b s].
    + split; [discriminate | intros [r Hr]; discriminate].
    + rewrite andb_true_iff, Ascii.eqb_eq, IH.
      split.
      * intros [-> [r ->]]. exists r; reflexivity.
      * intros [r Hr]. injection Hr as -> ->. split; [reflexivity | eauto].
Qed.

Lemma includes_spec (s needle : string) :
  includes s needle = true <-> occurs needle s.
Proof.
  induction s as [|c s IH].
  - cbn [includes]. rewrite orb_false_r, startsWith_spec. split.
    + intros [r Hr]. exists "", r. exact Hr.
    + intros [b [r Hr]]. destruct b; [exists r; exact Hr | discriminate].
  - cbn [includes]. rewrite orb_true_iff, startsWith_spec, IH. split.
    + intros [[r Hr] | [b [r Hr]]].
      * exists "", r. exact Hr.
      * exists (String c b), r. simpl. rewrite Hr. reflexivity.
    + intros [b [r Hr]]. destruct b as [|c' b].
      * left. exists r. exact Hr.
      * right. simpl in Hr. injection Hr as _ Hr. exists b, r. exact Hr.
Qed.

(** ** Plate masking *)

(** C8.  [maskPlate] answers ['N/A'] for a missing or empty plate; for any
    other plate string it answers ['***ANONYMIZED***'] when the upper-cased
    plate contains ["GOVT"] or ["ROYAL"] at any position, and the plate
    itself when it contains neither -- so, unless the plate is itself the
    mask text, the mask is returned exactly when one of the two words
    occurs. *)
Theorem maskPlate_substring `{JSEngine} (plate : string) :
  Plates.maskPlate JUndef = Some "N/A" /\
  Plates.maskPlate JNull = Some "N/A" /\
  Plates.maskPlate (JStr "") = Some "N/A" /\
  (plate <> "" ->
   let marked := occurs "GOVT" (toUpperCase plate)
                 \/ occurs "ROYAL" (toUpperCase plate) in
   (marked -> Plates.maskPlate (JStr plate) = Some "***ANONYMIZED***") /\
   (~ marked -> Plates.maskPlate (JStr plate) = Some plate) /\
   (plate <> "***ANONYMIZED***" ->
    (Plates.maskPlate (JStr plate) = Some "***ANONYMIZED***" <-> marked))).
Proof.
  split; [reflexivity |]. split; [reflexivity |]. split; [reflexivity |].
  intros Hne marked.
  set (found := includes (toUpperCase plate) "GOVT"
                || includes (toUpperCase plate) "ROYAL").
  assert (Hmask : Plates.maskPlate (JStr plate)
                  = Some (if found then "***ANONYMIZED***" else plate)).
  { unfold Plates.maskPlate, found. cbn [truthy].
    apply String.eqb_neq in Hne. rewrite Hne. cbn [negb].
    destruct (includes (toUpperCase plate) "GOVT"
              || includes (toUpperCase plate) "ROYAL"); reflexivity. }
  assert (Hfound : found = true <-> marked).
  { unfold found, marked. rewrite orb_true_iff, !includes_spec. reflexivity. }
  rewrite Hmask. destruct found.
  - split; [reflexivity |].
    split; [intros Hn; exfalso; apply Hn, Hfound; reflexivity |].
    intros _. split; [intros _; apply Hfound; reflexivity | reflexivity].
  - split; [intros Hm; apply Hfound in Hm; discriminate |].
    split; [reflexivity |].
    intros Hmask_text. split.
    + intros [= ->]. contradiction.
    + intros Hm. apply Hfound in Hm. discriminate.
Qed.

(** The word is found in the middle of a lower-case plate. *)
Lemma maskPlate_substring_witness :
  Plates.maskPlate (JStr "bp-govt-1234") = Some "***ANONYMIZED***".
Proof.
  assert (Hne : "bp-govt-1234" <> "") by discriminate.
  apply (proj1 (proj2 (proj2 (proj2
           (maskPlate_substring "bp-govt-1234"))) Hne)).
  left. exists "BP-", "-1234". reflexivity.
Defined.

Example maskPlate_plain : Plates.maskPlate (JStr "BP-1-A1234") = Some "BP-1-A1234".
Proof. reflexivity. Qed.

Example maskPlate_royal_suffix :
  Plates.maskPlate (JStr "7-Royal") = Some "***ANONYMIZED***".
Proof. reflexivity. Qed.

Example maskPlate_number_throws : Plates.maskPlate (JNum (Fin 7)) = None.
Proof. reflexivity. Qed.

(** ** Slot statistics *)

Lemma digits_one (d : N) : (d < 10)%N -> String.length (digits d) = 1%nat.
Proof.
  intros Hd.
  assert (Hc : (d = 0 \/ d = 1 \/ d = 2 \/ d = 3 \/ d = 4 \/ d = 5 \/ d = 6
               \/ d = 7 \/ d = 8 \/ d = 9)%N) by lia.
  repeat (destruct Hc as [-> | Hc]; [reflexivity | idtac]). subst d. reflexivity.
Qed.

Lemma toFixed_percentage `{JSEngine} (occ tot : Z) :
  0 <= occ <= tot -> 0 < tot ->
  toFixed (num_mul (num_div (num_of_Z occ) (num_of_Z tot)) (num_of_Z 100)) 1
  = tenths (Z.to_N ((2000 * occ + tot) / (2 * tot))).
Proof.
  intros Ho Ht.
  destruct tot as [|p|p]; try lia.
  unfold num_of_Z, num_div, num_mul, Qis_zero, inject_Z. cbn [Qnum].
  cbn [Z.eqb].
  unfold toFixed.
  assert (Hx : ((occ # 1) / (Z.pos p # 1) * 100 == (100 * occ) # p)%Q).
  { unfold Qeq, Qdiv, Qmult, Qinv. cbn [Qnum Qden]. lia. }
  assert (Hx0 : (0 <= (occ # 1) / (Z.pos p # 1) * 100)%Q).
  { rewrite Hx. unfold Qle. cbn [Qnum Qden]. lia. }
  assert (Hneg : Qsign_neg ((occ # 1) / (Z.pos p # 1) * 100) = false).
  { unfold Qsign_neg. apply Z.ltb_ge. unfold Qle in Hx0. cbn [Qnum Qden] in Hx0. lia. }
  rewrite Hneg.
  assert (Habs : (Qabs ((occ # 1) / (Z.pos p # 1) * 100) == (100 * occ) # p)%Q).
  { rewrite Qabs_pos by exact Hx0. exact Hx. }
  assert (Hbig : Qle_bool (inject_Z (10 ^ 21)) (Qabs ((occ # 1) / (Z.pos p # 1) * 100)) = false).
  { apply not_true_is_false. rewrite Qle_bool_iff, Habs. unfold Qle, inject_Z. cbn [Qnum Qden].
    nia. }
  rewrite Hbig.
  assert (Hfl : Qfloor (Qabs ((occ # 1) / (Z.pos p # 1) * 100) * inject_Z (10 ^ Z.of_nat 1) + (1 # 2))
                = (2000 * occ + Z.pos p) / (2 * Z.pos p)).
  { rewrite Habs. 
    transitivity (Qfloor ((2000 * occ + Z.pos p) # (2 * p))).
    - apply Qfloor_comp. unfold Qeq, Qplus, Qmult, inject_Z. cbn [Qnum Qden]. 
      change (10 ^ Z.of_nat 1) with 10. lia.
    - reflexivity. }
  cbv zeta. rewrite Hfl.
  change (Z.to_N (10 ^ Z.of_nat 1)) with 10%N.
  set (n := Z.to_N ((2000 * occ + Z.pos p) `div` (2 * Z.pos p))).
  rewrite digits_one by (apply N.mod_lt; discriminate).
  reflexivity.
Qed.

Lemma filter_occupied_records `{JSEngine} (l : list Provider.slot) :
  Provider.filter_occupied (Some <$> l)
  = Some (Some <$> filter
            (fun s => truthy (Provider.slot_isOccupied s) = true) l).
Proof.
  induction l as [|s l IH]; [reflexivity |].
  cbn [fmap list_fmap Provider.filter_occupied]. 
  change (list_fmap _ _ Some l) with (Some <$> l). rewrite IH.
  rewrite filter_cons. destruct (truthy (Provider.slot_isOccupied s)) eqn:Ht.
  - rewrite decide_True by reflexivity. reflexivity.
  - rewrite decide_False by discriminate. reflexivity.
Qed.

Lemma values_of_records (m : gmap string Provider.slot) :
  (map_to_list (Some <$> m)).*2 = Some <$> (map_to_list m).*2.
Proof.
  rewrite map_to_list_fmap. rewrite <- !list_fmap_compose.
  apply list_fmap_ext. intros _ [k s] _. reflexivity.
Qed.

(** Counting the values of a dictionary that satisfy [P] is counting the
    keys bound to such a value. *)
Lemma count_values {A : Type} (P : A -> Prop) `{forall a, Decision (P a)}
    (m : gmap string A) :
  length (filter P (map_to_list m).*2) = size (filter (fun kv => P kv.2) m).
Proof.
  induction m as [|k a m Hk IH] using map_ind.
  - rewrite map_to_list_empty, map_filter_empty, map_size_empty. reflexivity.
  - rewrite map_to_list_insert by exact Hk. cbn [fmap list_fmap snd].
    rewrite filter_cons.
    destruct (decide (P a)) as [Ha | Ha].
    + rewrite map_filter_insert_True by exact Ha.
      rewrite map_size_insert_None by (apply map_lookup_filter_None; auto).
      cbn [length]. f_equal. exact IH.
    + rewrite map_filter_insert_not' by (first [exact Ha | congruence]).
      exact IH.
Qed.

Lemma occupied_slots_size (m : gmap string Provider.slot) :
  length (filter (fun s => truthy (Provider.slot_isOccupied s) = true)
            (map_to_list m).*2)
  = size (occupied_slots m).
Proof. apply count_values. Qed.

Lemma occupied_slots_le (m : gmap string Provider.slot) :
  (size (occupied_slots m) <= size m)%nat.
Proof.
  rewrite <- occupied_slots_size.
  rewrite <- (length_map_to_list m), <- (length_fmap snd (map_to_list m)).
  apply length_filter.
Qed.

Lemma getSlotStatistics_records `{JSEngine} (m : gmap string Provider.slot)
    (st : Provider.provider) :
  let total := Z.of_nat (size m) in
  let occupied := Z.of_nat (size (occupied_slots m)) in
  Provider.getSlotStatistics (holding m st)
  = Some {| Provider.total := total;
            Provider.occupied := occupied;
            Provider.available := total - occupied;
            Provider.occupancyPercentage :=
              if 0 <? total
              then JStr (tenths (Z.to_N ((2000 * occupied + total)
                                         / (2 * total))))
              else JNum (num_of_Z 0);
            Provider.slots := Some <$> m |}.
Proof.
  intros total occupied. unfold Provider.getSlotStatistics, holding.
  cbn [Provider.slotStatus]. rewrite values_of_records, filter_occupied_records.
  rewrite !length_fmap, occupied_slots_size, length_map_to_list.
  fold total occupied.
  destruct (0 <? total) eqn:Hpos; [| reflexivity].
  apply Z.ltb_lt in Hpos.
  rewrite toFixed_percentage; [reflexivity | | exact Hpos].
  pose proof (occupied_slots_le m). unfold total, occupied. lia.
Qed.

Lemma occupied_slots_lookup (m : gmap string Provider.slot) (k : string)
    (s : Provider.slot) :
  occupied_slots m !! k = Some s
  <-> m !! k = Some s /\ truthy (Provider.slot_isOccupied s) = true.
Proof. unfold occupied_slots. apply map_lookup_filter_Some. Qed.

Lemma nearest_tenths_close (occ tot : Z) :
  0 <= occ <= tot ->
  2 * Z.abs (nearest_tenths occ tot * tot - 1000 * occ) <= tot.
Proof.
  intros Hocc. unfold nearest_tenths.
  destruct (Z.eq_dec tot 0) as [-> | Hne].
  - assert (occ = 0) as -> by lia. reflexivity.
  - pose proof (Z.div_mod (2000 * occ + tot) (2 * tot) ltac:(lia)) as Hdm.
    pose proof (Z.mod_pos_bound (2000 * occ + tot) (2 * tot) ltac:(lia)) as Hb.
    lia.
Qed.

(** C3.  On every slot dictionary [getSlotStatistics] returns (it does not
    throw, and never divides by zero): [total] is the number of slots,
    [occupied] the number of slots whose [isOccupied] holds, [available] their
    difference, and [occupancyPercentage] is [0] for an empty dictionary and
    otherwise the one-decimal numeral of some number [n] of tenths that lies
    within half a tenth of [occupied / total * 100] -- the percentage rounded
    to one decimal; which of two equally near numerals is printed is left
    open, since it depends on the rounding of the division.  The empty
    dictionary gives [0, 0, 0, 0] and the dictionary
    [{A: {isOccupied: true}}] gives ["100.0"]. *)
Theorem getSlotStatistics_counts `{JSEngine} (m : gmap string Provider.slot)
    (st : Provider.provider) :
  (exists (s : Provider.statistics) (n : Z),
     Provider.getSlotStatistics (holding m st) = Some s /\
     Provider.total s = Z.of_nat (size m) /\
     Provider.occupied s = Z.of_nat (size (occupied_slots m)) /\
     Provider.available s = Provider.total s - Provider.occupied s /\
     0 <= n /\
     2 * Z.abs (n * Provider.total s - 1000 * Provider.occupied s)
       <= Provider.total s /\
     Provider.occupancyPercentage s
     = if Provider.total s =? 0 then JNum (num_of_Z 0)
       else JStr (tenths (Z.to_N n))) /\
  Provider.getSlotStatistics (holding ∅ st)
  = Some {| Provider.total := 0; Provider.occupied := 0;
            Provider.available := 0;
            Provider.occupancyPercentage := JNum (num_of_Z 0);
            Provider.slots := ∅ |} /\
  Provider.occupancyPercentage
    <$> Provider.getSlotStatistics
          (holding {[ "A" := flagged (JBool true) ]} st)
  = Some (JStr "100.0").
Proof.
  split; [| split].
  - pose proof (occupied_slots_le m) as Hle.
    eexists.
    exists (nearest_tenths (Z.of_nat (size (occupied_slots m)))
                           (Z.of_nat (size m))).
    split; [apply getSlotStatistics_records |].
    cbn [Provider.total Provider.occupied Provider.available
         Provider.occupancyPercentage].
    split; [reflexivity |]. split; [reflexivity |]. split; [reflexivity |].
    split; [| split].
    + unfold nearest_tenths.
      destruct (Z.eq_dec (Z.of_nat (size m)) 0) as [-> | Hne];
        [rewrite Z.mul_0_r, Z.div_0_r; lia | apply Z.div_pos; lia].
    + apply nearest_tenths_close. lia.
    + destruct (Z.of_nat (size m)) eqn:Hsz; try reflexivity. lia.
  - rewrite getSlotStatistics_records.
    unfold occupied_slots. rewrite map_filter_empty, fmap_empty, map_size_empty.
    reflexivity.
  - rewrite getSlotStatistics_records.
    unfold occupied_slots.
    rewrite map_filter_singleton_True by reflexivity.
    rewrite map_size_singleton. reflexivity.
Qed.

(** C10.  The record returned by [getSlotStatistics] is consistent:
    [occupied + available = total], both counts lie between [0] and [total],
    and [occupied] is the number of slots whose [isOccupied] holds. *)
Theorem getSlotStatistics_consistent `{JSEngine}
    (m : gmap string Provider.slot) (st : Provider.provider) :
  exists s : Provider.statistics,
    Provider.getSlotStatistics (holding m st) = Some s /\
    Provider.occupied s + Provider.available s = Provider.total s /\
    0 <= Provider.occupied s <= Provider.total s /\
    0 <= Provider.available s <= Provider.total s /\
    Provider.occupied s = Z.of_nat (size (occupied_slots m)).
Proof.
  eexists. split; [apply getSlotStatistics_records |].
  cbn [Provider.total Provider.occupied Provider.available].
  pose proof (occupied_slots_le m) as Hle.
  repeat split; lia.
Qed.

Example statistics_three_slots :
  Provider.getSlotStatistics
    (holding (list_to_map [("A", flagged (JBool true));
                           ("B", flagged (JBool false));
                           ("C", flagged (JBool false))]) Provider.initial)
  = Some {| Provider.total := 3; Provider.occupied := 1;
            Provider.available := 2;
            Provider.occupancyPercentage := JStr "33.3";
            Provider.slots :=
              Some <$> list_to_map [("A", flagged (JBool true));
                                    ("B", flagged (JBool false));
                                    ("C", flagged (JBool false))] |}.
Proof. vm_compute. reflexivity. Qed.

(** A dictionary holding [null] makes [s.isOccupied] throw. *)
Example statistics_null_slot :
  Provider.getSlotStatistics
    {| Provider.slotStatus := {[ "A" := None ]};
       Provider.activeViolations := [];
       Provider.prevSlotsRef := ∅;
       Provider.prevViolationsRef := [] |} = None.
Proof. reflexivity. Qed.

(** ** Status normalization *)

(** C9.  The two consumers disagree on the upper-case status the dashboard
    sends and on a boolean flag; they agree on the lower-case status. *)
Theorem status_normalization_differs :
  truthy (Provider.normalized_isOccupied (with_status "OCCUPIED")) = false /\
  LiveFeed.occupied (JStr "OCCUPIED") = true /\
  truthy (Provider.normalized_isOccupied (flagged (JBool true))) = true /\
  LiveFeed.occupied (JBool true) = false /\
  truthy (Provider.normalized_isOccupied (with_status "occupied")) = true /\
  LiveFeed.occupied (JStr "occupied") = true.
Proof. repeat split; reflexivity. Qed.

(** ** Slot transitions *)

Lemma count_app {A : Type} (f : A -> bool) (l1 l2 : list A) :
  Provider.count f (l1 ++ l2) = (Provider.count f l1 + Provider.count f l2)%nat.
Proof.
  induction l1 as [|x l1 IH]; [reflexivity |].
  cbn [app Provider.count]. rewrite IH. lia.
Qed.

Lemma compare_slot_count `{JSEngine} (prev : gmap string Provider.slotval)
    (k' : string) (now : Provider.slot) (t : Provider.ntype) (k : string) :
  exists rs,
    Provider.compare_slot prev k' (Some now) = Some rs /\
    Forall (fun r => Provider.req_type r = Provider.slot_occupied
                     \/ Provider.req_type r = Provider.slot_available) rs /\
    Provider.count (Provider.about_slot t k) rs
    = if String.eqb k' k then expected_for t prev k' now else 0%nat.
Proof.
  unfold Provider.compare_slot, expected_for, expected.
  destruct (prev !! k') as [[before |] |].
  2,3: (eexists; split; [reflexivity |]; split; [constructor |];
        destruct (String.eqb k' k); reflexivity).
  destruct (truthy (Provider.slot_isOccupied before)),
           (truthy (Provider.slot_isOccupied now));
    cbn [andb negb]; eexists; (split; [reflexivity |]);
    (split; [repeat constructor; auto |]);
    unfold Provider.about_slot;
    cbn [Provider.count Provider.available_request Provider.occupied_request
         Provider.req_type Provider.req_data];
    destruct t; cbn [Provider.ntype_eqb andb];
    destruct (String.eqb k' k); reflexivity.
Qed.

Lemma compare_all_count `{JSEngine} (prev : gmap string Provider.slotval)
    (entries : list (string * Provider.slotval)) (t : Provider.ntype)
    (k : string) :
  forallb is_record entries = true ->
  NoDup entries.*1 ->
  (Provider.compare_all prev entries).2 = Provider.Returns /\
  Forall (fun r => Provider.req_type r = Provider.slot_occupied
                   \/ Provider.req_type r = Provider.slot_available)
         (Provider.compare_all prev entries).1 /\
  (k ∉ entries.*1 ->
   Provider.count (Provider.about_slot t k)
     (Provider.compare_all prev entries).1 = 0%nat) /\
  (forall now, (k, Some now) ∈ entries ->
   Provider.count (Provider.about_slot t k)
     (Provider.compare_all prev entries).1 = expected_for t prev k now).
Proof.
  induction entries as [|[k' v] entries IH]; intros Hrec Hnd.
  - cbn. split; [reflexivity |]. split; [constructor |].
    split; [reflexivity | intros now Hin; inversion Hin].
  - cbn [forallb] in Hrec. apply andb_true_iff in Hrec as [Hv Hrec].
    cbn [fmap list_fmap fst] in Hnd. apply NoDup_cons in Hnd as [Hk' Hnd].
    destruct (IH Hrec Hnd) as (Hret & Hty & Hout & Hin).
    destruct v as [now' |]; [| discriminate].
    destruct (compare_slot_count prev k' now' t k) as (rs & Hrs & Hrty & Hcnt).
    cbn [Provider.compare_all]. rewrite Hrs.
    destruct (Provider.compare_all prev entries) as [more c] eqn:Hall.
    cbn [fst snd] in *.
    split; [exact Hret |].
    split; [apply Forall_app; split; assumption |].
    split.
    + intros Hnot. cbn [fmap list_fmap fst] in Hnot.
      apply not_elem_of_cons in Hnot as [Hne Hnot].
      rewrite count_app, Hcnt, (Hout Hnot).
      destruct (String.eqb_spec k' k); [congruence | reflexivity].
    + intros now Hmem. apply elem_of_cons in Hmem as [Heq | Hmem].
      * injection Heq as <- <-.
        rewrite count_app, Hcnt, String.eqb_refl, (Hout Hk'). lia.
      * rewrite count_app, Hcnt, (Hin now Hmem).
        destruct (String.eqb_spec k' k) as [-> | Hne]; [| reflexivity].
        exfalso. apply Hk'. apply list_elem_of_fmap.
        exists (k, Some now). split; [reflexivity | exact Hmem].
Qed.

(** An array payload never binds a key to [null]. *)
Lemma array_payload_records `{JSEngine} (l : list Provider.slot) :
  all_records (foldl Provider.array_step ∅ l) = true.
Proof.
  unfold all_records. apply forallb_forall. intros [k v] Hin.
  apply list_elem_of_In, elem_of_map_to_list in Hin.
  assert (Hinv : forall (acc : gmap string Provider.slotval),
             (forall k, acc !! k <> Some None) ->
             forall k, foldl Provider.array_step acc l !! k <> Some None).
  { clear. induction l as [|s l IH]; intros acc Hacc k; [apply Hacc |].
    cbn [foldl]. apply IH. intros k0. unfold Provider.array_step.
    destruct (decide (ToString (js_or (Provider.slot_id s)
                                      (Provider.slot_slotId s)) = k0))
      as [-> | Hne].
    - rewrite lookup_insert_eq. discriminate.
    - rewrite lookup_insert_ne by exact Hne. apply Hacc. }
  destruct v as [s |]; [reflexivity |].
  exfalso. apply (Hinv ∅ (fun k0 => ltac:(rewrite lookup_empty; discriminate)) k).
  exact Hin.
Qed.



Example first_poll_is_silent :
  Provider.emitted
    (Provider.checkSlotChanges Provider.initial
       (Provider.SlotsArray [slot_of "A" (JBool true) JUndef;
                             slot_of "B" JUndef (JStr "occupied")]))
  = [].
Proof. vm_compute. reflexivity. Qed.

Example slot_freed :
  Provider.emitted
    (Provider.checkSlotChanges
       (Provider.final
          (Provider.checkSlotChanges Provider.initial
             (Provider.SlotsArray [slot_of "B" JUndef (JStr "occupied")])))
       (Provider.SlotsArray [slot_of "B" JUndef (JStr "available")]))
  = [ {| Provider.req_type := Provider.slot_available;
         Provider.req_message := "Parking Slot B is now available";
         Provider.req_data :=
           Provider.SlotAvailableData "B" (JStr "B") "AVAILABLE" |} ].
Proof. vm_compute. reflexivity. Qed.

(** The scenario of the specification: slot A becomes occupied, one request
    is made, and the statistics over the new dictionary show ["100.0"]. *)
Example occupied_then_statistics :
  let r := Provider.checkSlotChanges saw_A_free
             (Provider.SlotsArray [slot_of "A" (JBool true) JUndef]) in
  map Provider.req_type (Provider.emitted r) = [Provider.slot_occupied] /\
  Provider.occupancyPercentage <$> Provider.getSlotStatistics (Provider.final r)
  = Some (JStr "100.0").
Proof. vm_compute. split; reflexivity. Qed.

(** A [null] entry in an object payload throws once the key is known. *)
Example null_entry_throws :
  Provider.completed
    (Provider.checkSlotChanges saw_A_free
       (Provider.SlotsObject {[ "A" := Provider.EPrim JNull ]}))
  = Provider.ThrowsTypeError.
Proof. vm_compute. reflexivity. Qed.

(** ** New violations *)

Lemma strict_eq_id_refl (v : Provider.violation) :
  carries_id v = true -> strict_eq (Provider.v_id v) (Provider.v_id v) = true.
Proof.
  unfold carries_id. destruct (Provider.v_id v) as [| |b|[| | |q]|s];
    try discriminate; intros _; cbn.
  - destruct b; reflexivity.
  - reflexivity.
  - reflexivity.
  - apply Qeq_bool_iff. reflexivity.
  - apply String.eqb_refl.
Qed.

Lemma same_violation_spec (p v : Provider.violation) :
  carries_id v = true ->
  Provider.same_violation p v = true <-> same_entity p v.
Proof.
  intros Hv. unfold Provider.same_violation, same_entity, share_id,
    same_plate_and_time.
  rewrite orb_true_iff, andb_true_iff. split.
  - intros [Hid | Hpt]; [left | right; exact Hpt].
    split; [| split; assumption].
    unfold carries_id in *.
    destruct (Provider.v_id p) as [| |b|[| | |q]|s],
             (Provider.v_id v) as [| |b'|[| | |q']|s'];
      try discriminate; reflexivity.
  - intros [(_ & _ & Hid) | Hpt]; [left; exact Hid | right; exact Hpt].
Qed.

Lemma known_spec (prev : list Provider.violation) (v : Provider.violation) :
  carries_id v = true ->
  existsb (fun p => Provider.same_violation p v) prev = true <-> known prev v.
Proof.
  intros Hv. unfold known. rewrite existsb_exists.
  split; intros [p [Hin Hsame]]; exists p.
  - split; [apply list_elem_of_In; exact Hin |].
    apply same_violation_spec; assumption.
  - split; [apply list_elem_of_In; exact Hin |].
    apply same_violation_spec; assumption.
Qed.

Lemma report_new_reports `{JSEngine} (prev cur : list Provider.violation) :
  forallb carries_id cur = true ->
  reports prev cur (Provider.report_new prev cur).
Proof.
  induction cur as [|v cur IH]; intros Hids; [constructor |].
  cbn [forallb] in Hids. apply andb_true_iff in Hids as [Hv Hids].
  cbn [Provider.report_new]. unfold Provider.isNewViolation.
  destruct (existsb (fun p => Provider.same_violation p v) prev) eqn:Hex;
    cbn [negb app].
  - apply reports_known; [| exact (IH Hids)].
    apply known_spec; assumption.
  - apply reports_new; [| exact (IH Hids)].
    intros Hk. apply known_spec in Hk; [congruence | exact Hv].
Qed.

Lemma report_new_types `{JSEngine} (prev cur : list Provider.violation) :
  Forall (fun q => Provider.req_type q = Provider.illegal_parking)
         (Provider.report_new prev cur).
Proof.
  induction cur as [|v cur IH]; [constructor |].
  cbn [Provider.report_new].
  destruct (Provider.isNewViolation prev v); cbn [app]; [constructor |];
    auto.
Qed.

(** Every violation seen at the previous poll is known at the next one. *)
Lemma report_new_seen `{JSEngine} (prev seen : list Provider.violation) :
  forallb carries_id seen = true ->
  (forall v, v ∈ seen -> v ∈ prev) ->
  Provider.report_new prev seen = [].
Proof.
  induction seen as [|v seen IH]; intros Hids Hsub; [reflexivity |].
  cbn [forallb] in Hids. apply andb_true_iff in Hids as [Hv Hids].
  cbn [Provider.report_new]. unfold Provider.isNewViolation.
  assert (Hk : existsb (fun p => Provider.same_violation p v) prev = true).
  { apply known_spec; [exact Hv |]. exists v.
    split; [apply Hsub; left |]. left.
    split; [exact Hv |]. split; [exact Hv |]. apply strict_eq_id_refl, Hv. }
  rewrite Hk. cbn [negb app]. apply IH; [exact Hids |].
  intros w Hw. apply Hsub. right. exact Hw.
Qed.

Lemma report_new_app `{JSEngine} (prev l1 l2 : list Provider.violation) :
  Provider.report_new prev (l1 ++ l2)
  = (Provider.report_new prev l1 ++ Provider.report_new prev l2)%list.
Proof.
  induction l1 as [|v l1 IH]; [reflexivity |].
  cbn [app Provider.report_new]. rewrite IH, app_assoc. reflexivity.
Qed.

(** C2 (amended).  When every current violation carries an id,
    [checkViolationChanges] makes exactly one [illegal_parking] request for
    each current violation that matches no previous one and none for a
    violation that matches, where two violations match when they share an id
    or when their plates and timestamps both agree; the current list becomes
    the previous one.  In particular, when the current list is the previous
    one followed by a single new entry that matches no previous violation,
    exactly one request is made. *)
Theorem checkViolationChanges_reports `{JSEngine} (st : Provider.provider)
    (cur : list Provider.violation) :
  forallb carries_id cur = true ->
  let prev := Provider.prevViolationsRef st in
  let r := Provider.checkViolationChanges st (Some cur) in
  Provider.completed r = Provider.Returns /\
  Provider.prevViolationsRef (Provider.final r) = cur /\
  Provider.activeViolations (Provider.final r) = cur /\
  reports prev cur (Provider.emitted r) /\
  Forall (fun q => Provider.req_type q = Provider.illegal_parking)
         (Provider.emitted r) /\
  forall v : Provider.violation,
    cur = (prev ++ [v])%list -> ~ known prev v ->
    Provider.emitted r = [Provider.violation_request v].
Proof.
  intros Hids prev r. subst prev r. unfold Provider.checkViolationChanges.
  cbn [Provider.completed Provider.final Provider.emitted
       Provider.prevViolationsRef Provider.activeViolations].
  split; [reflexivity |]. split; [reflexivity |]. split; [reflexivity |].
  split; [apply report_new_reports; exact Hids |].
  split; [apply report_new_types |].
  intros v -> Hnew.
  rewrite forallb_app in Hids. apply andb_true_iff in Hids as [Hprev Hv].
  rewrite report_new_app, report_new_seen; [| exact Hprev | auto].
  cbn [forallb] in Hv. apply andb_true_iff in Hv as [Hv _].
  cbn [Provider.report_new app].
  replace (Provider.isNewViolation (Provider.prevViolationsRef st) v)
    with true; [reflexivity |].
  symmetry. unfold Provider.isNewViolation. apply negb_true_iff.
  apply not_true_is_false. intros Hk. apply Hnew.
  apply known_spec; assumption.
Qed.

Lemma checkViolationChanges_reports_witness :
  Provider.emitted
    (Provider.checkViolationChanges saw_v1
       (Some [violation_of (JStr "v1") "BP-1-A1234" "Z1" "10:00";
              violation_of (JStr "v2") "BP-2-B5678" "Z1" "10:05"]))
  = [Provider.violation_request
       (violation_of (JStr "v2") "BP-2-B5678" "Z1" "10:05")].
Proof.
  refine (proj2 (proj2 (proj2 (proj2 (proj2
            (checkViolationChanges_reports saw_v1
               [violation_of (JStr "v1") "BP-1-A1234" "Z1" "10:00";
                violation_of (JStr "v2") "BP-2-B5678" "Z1" "10:05"]
               eq_refl)))))
            (violation_of (JStr "v2") "BP-2-B5678" "Z1" "10:05") eq_refl _).
  intros [p [Hin [(_ & _ & Hid) | [Hplate _]]]];
    apply list_elem_of_singleton in Hin; subst p; discriminate.
Defined.

(** C2 as stated fails: a new entry with a fresh id whose plate and timestamp
    repeat those of a previous violation is taken for a known one, and no
    request is made. *)
Lemma fresh_id_same_plate_and_time_is_silent :
  let previous := [violation_of (JStr "v1") "BP-1-A1234" "Z1" "10:00"] in
  let added := violation_of (JStr "v2") "BP-1-A1234" "Z2" "10:00" in
  Provider.prevViolationsRef saw_v1 = previous /\
  existsb (fun p => strict_eq (Provider.v_id p) (Provider.v_id added)) previous
  = false /\
  Provider.emitted
    (Provider.checkViolationChanges saw_v1 (Some (previous ++ [added])%list))
  = [].
Proof. cbv zeta. repeat split. Qed.

Example first_violation_reported :
  map Provider.req_message
    (Provider.emitted
       (Provider.checkViolationChanges Provider.initial
          (Some [violation_of (JStr "v1") "BP-1-A1234" "Z1" "10:00"])))
  = ["⚠️ Illegal Parking Violation: BP-1-A1234 in Z1"].
Proof. reflexivity. Qed.

(** Without ids, [undefined === undefined] holds and any two violations
    match: the second poll reports nothing for a different vehicle. *)
Example violations_without_id_all_match :
  let first := violation_of JUndef "BP-1-A1234" "Z1" "10:00" in
  let second := violation_of JUndef "BP-2-B5678" "Z1" "10:05" in
  Provider.emitted
    (Provider.checkViolationChanges
       (Provider.final
          (Provider.checkViolationChanges Provider.initial (Some [first])))
       (Some [first; second]))
  = [].
Proof. reflexivity. Qed.

Example non_array_clears :
  Provider.prevViolationsRef
    (Provider.final (Provider.checkViolationChanges saw_v1 None)) = [].
Proof. reflexivity. Qed.

(** ** Loading and saving a calibration *)

Lemma filter_Boolean_map {A B : Type} (f : A -> option B) (l : list A) :
  Calibration.filter_Boolean (map f l) = omap f l.
Proof.
  unfold Calibration.filter_Boolean.
  induction l as [|a l IH]; [reflexivity |].
  cbn [map omap list_omap]. fold (omap (fun o : option B => o) (map f l)).
  fold (omap f l). rewrite IH. reflexivity.
Qed.

Lemma rect_of_entry_Some `{JSEngine} (e : string * Calibration.coords)
    (r : Calibration.rect) :
  Calibration.rect_of_entry e = Some r <->
  exists c0 c1 c2 c3 : jsval,
    e = (Calibration.rect_id r, Calibration.CoordsArray [c0; c1; c2; c3]) /\
    r = {| Calibration.rect_id := Calibration.rect_id r;
           Calibration.rect_x := c0;
           Calibration.rect_y := c1;
           Calibration.rect_width := js_sub c2 c0;
           Calibration.rect_height := js_sub c3 c1 |}.
Proof.
  destruct e as [k c]. unfold Calibration.rect_of_entry. cbn [fst snd]. split.
  - destruct c as [[|c0 [|c1 [|c2 [|c3 [|c4 rest]]]]] |]; try discriminate.
    intros [= <-]. exists c0, c1, c2, c3. split; reflexivity.
  - intros (c0 & c1 & c2 & c3 & [= -> ->] & Hr). rewrite Hr. reflexivity.
Qed.

Lemma load_collection_ids `{JSEngine}
    (l : list (string * Calibration.coords)) :
  Calibration.rect_id <$> omap Calibration.rect_of_entry l `sublist_of` l.*1.
Proof.
  induction l as [|[k c] l IH]; [constructor |].
  cbn [omap list_omap].
  destruct (Calibration.rect_of_entry (k, c)) as [r |] eqn:Hr.
  - apply rect_of_entry_Some in Hr as (c0 & c1 & c2 & c3 & [= -> _] & _).
    cbn [fmap list_fmap fst]. apply sublist_skip. exact IH.
  - cbn [fmap list_fmap fst]. apply sublist_cons. exact IH.
Qed.

Lemma load_collection_kept `{JSEngine} (m : gmap string Calibration.coords) :
  kept m (Calibration.load_collection m).
Proof.
  unfold kept, Calibration.load_collection. rewrite filter_Boolean_map. split.
  - apply (sublist_NoDup _ _ (NoDup_fst_map_to_list m)).
    apply load_collection_ids.
  - intros r. rewrite list_elem_of_omap. split.
    + intros [[k c] [Hin Hr]].
      apply rect_of_entry_Some in Hr as (c0 & c1 & c2 & c3 & [= -> ->] & Hr).
      apply elem_of_map_to_list in Hin. exists c0, c1, c2, c3. split; assumption.
    + intros (c0 & c1 & c2 & c3 & Hm & Hr).
      exists (Calibration.rect_id r, Calibration.CoordsArray [c0; c1; c2; c3]).
      split; [apply elem_of_map_to_list; exact Hm |].
      apply rect_of_entry_Some. exists c0, c1, c2, c3. split; [reflexivity | exact Hr].
Qed.

(** C4 (amended).  With both collections present, [loadCalibration] keeps
    exactly the entries that are arrays of four members -- whatever the
    members are -- as one rectangle [{id, x: c0, y: c1, width: c2 - c0,
    height: c3 - c1}] per id, and drops every other entry; it does not
    raise: a rejected request, a missing body or a missing collection leaves
    the rectangles as they were. *)
Theorem loadCalibration_keeps_arrays_of_four `{JSEngine}
    (st : Calibration.editor) (ps iz : gmap string Calibration.coords) :
  let both := {| Calibration.parking_slots := Some ps;
                 Calibration.illegal_zones := Some iz |} in
  kept ps (Calibration.rectangles_slots
             (Calibration.loadCalibration st (Some both))) /\
  kept iz (Calibration.rectangles_illegal
             (Calibration.loadCalibration st (Some both))) /\
  Calibration.loadCalibration st None = st /\
  Calibration.loadCalibration st
    (Some {| Calibration.parking_slots := None;
             Calibration.illegal_zones := Some iz |}) = st /\
  Calibration.loadCalibration st
    (Some {| Calibration.parking_slots := Some ps;
             Calibration.illegal_zones := None |}) = st.
Proof.
  cbn. split; [apply load_collection_kept |].
  split; [apply load_collection_kept |].
  split; [reflexivity |]. split; reflexivity.
Qed.

(** C4 as stated fails: a tuple with [x2 < x1] and [y2 < y1] is kept, as a
    rectangle of negative width and height. *)
Lemma inverted_tuple_is_kept :
  Calibration.rectangles_slots
    (Calibration.loadCalibration Calibration.mount
       (Some {| Calibration.parking_slots :=
                  Some {[ "A" := Calibration.CoordsArray
                                   [number 300; number 300;
                                    number 100; number 100] ]};
                Calibration.illegal_zones := Some ∅ |}))
  = [ {| Calibration.rect_id := "A";
         Calibration.rect_x := number 300;
         Calibration.rect_y := number 300;
         Calibration.rect_width := number (-200);
         Calibration.rect_height := number (-200) |} ].
Proof. vm_compute. reflexivity. Qed.

(** Members that are not numbers pass the guard as well. *)
Example non_numeric_tuple_is_kept :
  map Calibration.rect_id
    (Calibration.rectangles_illegal
       (Calibration.loadCalibration Calibration.mount
          (Some {| Calibration.parking_slots := Some ∅;
                   Calibration.illegal_zones :=
                     Some {[ "Z" := Calibration.CoordsArray
                                      [JStr "a"; JNull; JBool true; JUndef] ]}
                |})))
  = ["Z"].
Proof. vm_compute. reflexivity. Qed.

Example malformed_entries_are_dropped :
  map Calibration.rect_id
    (Calibration.rectangles_slots
       (Calibration.loadCalibration Calibration.mount
          (Some {| Calibration.parking_slots :=
                     Some (list_to_map
                             [("A1", Calibration.CoordsArray
                                       [number 1; number 2; number 3]);
                              ("A2", Calibration.CoordsOther);
                              ("A3", Calibration.CoordsArray
                                       [number 0; number 0;
                                        number 5; number 5])]);
                   Calibration.illegal_zones := Some ∅ |})))
  = ["A3"].
Proof. vm_compute. reflexivity. Qed.

(** *** Round trip *)








Example save_rounds_fractions :
  Calibration.corners
    {| Calibration.rect_id := "A1";
       Calibration.rect_x := JNum (Fin (201 # 2));
       Calibration.rect_y := JNum (Fin (1 # 4));
       Calibration.rect_width := JNum (Fin (399 # 4));
       Calibration.rect_height := JNum (Fin 50) |}
  = [number 101; number 0; number 200; number 50].
Proof. vm_compute. reflexivity. Qed.

(** A later rectangle with the same id replaces the earlier one. *)
Example save_last_write_wins :
  Calibration.serialize
    [ {| Calibration.rect_id := "A1"; Calibration.rect_x := number 0;
         Calibration.rect_y := number 0; Calibration.rect_width := number 10;
         Calibration.rect_height := number 10 |};
      {| Calibration.rect_id := "A1"; Calibration.rect_x := number 5;
         Calibration.rect_y := number 5; Calibration.rect_width := number 10;
         Calibration.rect_height := number 10 |} ]
  = {[ "A1" := [number 5; number 5; number 15; number 15] ]}.
Proof. vm_compute. reflexivity. Qed.

(** ** Completing a rectangle *)

(** C6 (amended).  [handleMouseUp] on a drawing editor always leaves the
    editor idle, with the in-progress rectangle cleared, the mode and the
    collection of the other mode unchanged.  When the canvas and a complete
    image are there and the drawn rectangle is more than 20 pixels wide and
    more than 20 pixels high on the canvas, the id is asked for and, if a
    non-empty trimmed id is supplied, the rectangle converted to image
    coordinates is appended to the collection of the current mode; in every
    other case nothing is asked and no collection changes. *)
Theorem handleMouseUp_outcome `{JSEngine} (st : Calibration.editor)
    (r : Calibration.refs) (e : Calibration.mouse_event)
    (answer : option string) (cur : Calibration.drawing) :
  Calibration.isDrawing st = true ->
  Calibration.currentRect st = Some cur ->
  let pos := Calibration.getMousePos r e in
  let x1Canvas := Math_min (Calibration.startX cur) pos.1 in
  let y1Canvas := Math_min (Calibration.startY cur) pos.2 in
  let x2Canvas := Math_max (Calibration.startX cur) pos.1 in
  let y2Canvas := Math_max (Calibration.startY cur) pos.2 in
  let large := num_gt (num_sub x2Canvas x1Canvas) (Fin 20)
               && num_gt (num_sub y2Canvas y1Canvas) (Fin 20) in
  let m := Calibration.mode_of st in
  let out := Calibration.handleMouseUp st r e answer in
  Calibration.isDrawing out.1 = false /\
  Calibration.currentRect out.1 = None /\
  Calibration.mode_of out.1 = m /\
  Calibration.rectangles out.1 (other m) = Calibration.rectangles st (other m) /\
  match ready r, large with
  | Some (canvas, image), true =>
      out.2 = [Calibration.PreventDefault;
               Calibration.Prompt (Calibration.prompt_message m)] /\
      Calibration.rectangles out.1 m
      = (Calibration.rectangles st m ++
         match supplied_id answer with
         | Some id =>
             [Calibration.toNative
                (num_div (Calibration.naturalWidth image)
                         (Calibration.canvas_width canvas))
                (num_div (Calibration.naturalHeight image)
                         (Calibration.canvas_height canvas))
                x1Canvas y1Canvas x2Canvas y2Canvas id]
         | None => []
         end)%list
  | _, _ =>
      out.2 = [Calibration.PreventDefault] /\
      Calibration.rectangles out.1 m = Calibration.rectangles st m
  end.
Proof.
  intros Hdrawing Hcur. cbv zeta.
  destruct st as [m rs ri c d saving saved].
  cbn [Calibration.isDrawing Calibration.currentRect] in Hdrawing, Hcur.
  subst d c.
  unfold Calibration.handleMouseUp, ready, supplied_id.
  cbn [Calibration.isDrawing Calibration.currentRect Calibration.mode_of].
  destruct (Calibration.canvasRef r) as [canvas |];
    [| destruct m; repeat split].
  destruct (Calibration.imageRef r) as [image |];
    [| destruct m; repeat split].
  destruct (Calibration.complete image); cbn [negb];
    [| destruct m; repeat split].
  match goal with
  | |- context [if ?c then _ else _] => destruct c
  end; [| destruct m; repeat split].
  destruct answer as [id |];
    [| destruct m; cbn; rewrite ?app_nil_r; repeat split].
  destruct (negb (String.eqb id "") && negb (String.eqb (trim id) ""));
    destruct m; cbn; rewrite ?app_nil_r; repeat split.
Qed.

Lemma handleMouseUp_outcome_witness :
  map Calibration.rect_id
    (Calibration.rectangles_slots
       (Calibration.handleMouseUp (dragging_from 10 10) page
          (mouse_at 110 90) (Some " A1 ")).1)
  = ["A1"].
Proof.
  pose proof (handleMouseUp_outcome (dragging_from 10 10) page
                (mouse_at 110 90) (Some " A1 ") _ eq_refl eq_refl)
    as (_ & _ & _ & _ & Hlarge).
  exact (f_equal (map Calibration.rect_id) (proj2 Hlarge)).
Defined.

(** C6 as stated fails: a rectangle exactly 20 pixels wide is not below the
    20-pixel threshold, yet it is discarded without asking for an id. *)
Lemma twenty_pixels_wide_is_discarded :
  let out := Calibration.handleMouseUp (dragging_from 0 0) page
               (mouse_at 20 100) (Some "A1") in
  num_sub (Math_max (num_of_Z 0) (num_of_Z 20))
          (Math_min (num_of_Z 0) (num_of_Z 20)) = num_of_Z 20 /\
  num_lt (num_of_Z 20) (Fin 20) = false /\
  num_lt (num_sub (Math_max (num_of_Z 0) (num_of_Z 100))
                  (Math_min (num_of_Z 0) (num_of_Z 100))) (Fin 20) = false /\
  out.2 = [Calibration.PreventDefault] /\
  Calibration.rectangles_slots out.1 = [] /\
  Calibration.isDrawing out.1 = false.
Proof. vm_compute. repeat split. Qed.

Example twenty_one_pixels_is_committed :
  let out := Calibration.handleMouseUp (dragging_from 0 0) page
               (mouse_at 21 100) (Some "A1") in
  out.2 = [Calibration.PreventDefault; Calibration.Prompt "Enter slot ID:"] /\
  exists added : Calibration.rect,
    Calibration.rectangles_slots out.1 = [added] /\
    rect_equiv added (rect_of "A1" 0 0 42 200).
Proof.
  split; [reflexivity |]. eexists. split; [reflexivity |].
  vm_compute. repeat split.
Qed.

Example blank_id_is_refused :
  Calibration.rectangles_slots
    (Calibration.handleMouseUp (dragging_from 0 0) page
       (mouse_at 200 100) (Some "   ")).1 = [].
Proof. vm_compute. reflexivity. Qed.

Example drag_down_move_leave :
  let s1 := (Calibration.handleMouseDown Calibration.mount page
               (mouse_at 5 5)).1 in
  let s2 := (Calibration.handleMouseMove s1 page (mouse_at 50 60)).1 in
  Calibration.isDrawing s2 = true /\
  Calibration.handleMouseLeave s2 = Calibration.mount.
Proof. vm_compute. split; reflexivity. Qed.

(** ** Coordinate transform *)

Lemma Qis_zero_false (q : Q) : (0 < q)%Q -> Qis_zero q = false.
Proof.
  unfold Qlt, Qis_zero. cbn [Qnum Qden]. intros Hq. apply Z.eqb_neq. lia.
Qed.





Example display_of_A1 :
  Calibration.drawCanvas
    (Calibration.loadCalibration Calibration.mount
       (Some {| Calibration.parking_slots :=
                  Some {[ "A1" := Calibration.CoordsArray
                                    (tuple (100, 100, 300, 300)) ]};
                Calibration.illegal_zones := Some ∅ |}))
    page
  = [ {| Calibration.box_label := "A1";
         Calibration.box_x := Fin (100 * (800 / 1600));
         Calibration.box_y := Fin (100 * (450 / 900));
         Calibration.box_width := Fin ((300 + - 100) * (800 / 1600));
         Calibration.box_height := Fin ((300 + - 100) * (450 / 900)) |} ]
  /\ (100 * (800 / 1600) == 50)%Q /\ ((300 + - 100) * (450 / 900) == 100)%Q.
Proof. vm_compute. repeat split. Qed.

(** * Further properties *)

(** ** The notification list *)

Lemma filter_other_ids (id : jsnum) (l : list Notifications.notification) :
  forallb (fun m => negb (num_eq (Notifications.n_id m) id)) l = true ->
  List.filter (fun m => negb (num_eq (Notifications.n_id m) id)) l = l.
Proof.
  induction l as [|m l IH]; [reflexivity |].
  cbn [forallb List.filter]. intros Hall.
  apply andb_true_iff in Hall as [Hm Hl]. rewrite Hm, (IH Hl). reflexivity.
Qed.

(** X1.  Removing -- by hand or by the timer -- the id of a notification
    that no other notification shares deletes that notification alone and
    keeps the others in their order. *)
Theorem removeNotification_removes_one
    (before after : list Notifications.notification)
    (n : Notifications.notification) :
  num_eq (Notifications.n_id n) (Notifications.n_id n) = true ->
  forallb (fun m => negb (num_eq (Notifications.n_id m) (Notifications.n_id n)))
          (before ++ after) = true ->
  Notifications.removeNotification (Notifications.n_id n)
    (before ++ n :: after) = (before ++ after)%list /\
  Notifications.expire (Notifications.n_id n)
    (before ++ n :: after) = (before ++ after)%list.
Proof.
  intros Hself Hothers.
  rewrite forallb_app in Hothers. apply andb_true_iff in Hothers as [Hb Ha].
  unfold Notifications.removeNotification, Notifications.expire.
  rewrite List.filter_app. cbn [List.filter]. rewrite Hself. cbn [negb].
  rewrite (filter_other_ids _ _ Hb), (filter_other_ids _ _ Ha).
  split; reflexivity.
Qed.

(** A notification is added and its timer fires: the list is as before. *)
Lemma removeNotification_removes_one_witness :
  let added := Notifications.addNotification 1700000000000 (1 # 4) 0
                 (Provider.available_request "A"
                    (flagged (JBool false)))
                 [note 5 "older"] in
  Notifications.expire added.2 added.1 = [note 5 "older"].
Proof.
  exact (proj2 (removeNotification_removes_one []
                  [note 5 "older"]
                  {| Notifications.n_id := Fin (1700000000000 + (1 # 4));
                     Notifications.n_type := Provider.slot_available;
                     Notifications.n_message :=
                       "Parking Slot A is now available";
                     Notifications.n_data :=
                       Provider.SlotAvailableData "A" (JStr "A") "AVAILABLE";
                     Notifications.n_timestamp := 0 |}
                  eq_refl eq_refl)).
Defined.

(** X2.  Removing an id twice -- the timer and a manual dismissal racing --
    leaves the list as the first removal left it, and no notification with
    that id remains. *)
Theorem removeNotification_idempotent (id : jsnum)
    (l : list Notifications.notification) :
  Notifications.removeNotification id (Notifications.removeNotification id l)
  = Notifications.removeNotification id l /\
  Notifications.expire id (Notifications.removeNotification id l)
  = Notifications.removeNotification id l /\
  Notifications.removeNotification id (Notifications.expire id l)
  = Notifications.expire id l /\
  Forall (fun n => num_eq (Notifications.n_id n) id = false)
         (Notifications.removeNotification id l).
Proof.
  unfold Notifications.removeNotification, Notifications.expire.
  assert (Hrest : forallb (fun m => negb (num_eq (Notifications.n_id m) id))
                    (List.filter
                       (fun m => negb (num_eq (Notifications.n_id m) id)) l)
                  = true).
  { apply forallb_forall. intros m Hm. apply filter_In in Hm as [_ Hm].
    exact Hm. }
  rewrite (filter_other_ids _ _ Hrest).
  split; [reflexivity |]. split; [reflexivity |]. split; [reflexivity |].
  apply Forall_forall. intros m Hm. apply list_elem_of_In in Hm.
  rewrite forallb_forall in Hrest. apply negb_true_iff, Hrest, Hm.
Qed.

(** ** Quiet polls *)

Lemma compare_all_unchanged `{JSEngine}
    (prev : gmap string Provider.slotval)
    (entries : list (string * Provider.slotval)) :
  (forall k v, (k, v) ∈ entries ->
     exists s, v = Some s /\ prev !! k = Some (Some s)) ->
  Provider.compare_all prev entries = ([], Provider.Returns).
Proof.
  induction entries as [|[k v] entries IH]; intros Hsame; [reflexivity |].
  destruct (Hsame k v) as (s & -> & Hk); [left |].
  cbn [Provider.compare_all]. unfold Provider.compare_slot. rewrite Hk.
  rewrite IH by (intros k' v' Hin; apply Hsame; right; exact Hin).
  destruct (truthy (Provider.slot_isOccupied s)); reflexivity.
Qed.

Lemma records_of_all_records (cur : gmap string Provider.slotval)
    (k : string) (v : Provider.slotval) :
  all_records cur = true -> cur !! k = Some v -> exists s, v = Some s.
Proof.
  unfold all_records. rewrite forallb_forall. intros Hall Hk.
  apply elem_of_map_to_list, list_elem_of_In, Hall in Hk.
  destruct v as [s |]; [exists s; reflexivity | discriminate].
Qed.

(** X3.  Polling the same array of slots twice in a row raises no
    notification the second time: the second call returns, makes no call of
    [addNotification] and keeps the snapshot. *)
Theorem checkSlotChanges_repeat_is_silent `{JSEngine}
    (st : Provider.provider) (l : list Provider.slot) :
  let once := Provider.final
                (Provider.checkSlotChanges st (Provider.SlotsArray l)) in
  let twice := Provider.checkSlotChanges once (Provider.SlotsArray l) in
  Provider.emitted twice = [] /\
  Provider.completed twice = Provider.Returns /\
  Provider.final twice = once.
Proof.
  cbv zeta.
  pose proof (array_payload_records l) as Hrec.
  set (cur := foldl Provider.array_step ∅ l) in *.
  assert (Hfirst : Provider.final
                     (Provider.checkSlotChanges st (Provider.SlotsArray l))
                   = {| Provider.slotStatus := cur;
                        Provider.activeViolations := Provider.activeViolations st;
                        Provider.prevSlotsRef := cur;
                        Provider.prevViolationsRef :=
                          Provider.prevViolationsRef st |}).
  { unfold Provider.checkSlotChanges. cbn [Provider.currentSlotsMap]. fold cur.
    destruct (compare_all_count (Provider.prevSlotsRef st) (map_to_list cur)
                Provider.slot_occupied "" Hrec (NoDup_fst_map_to_list cur))
      as (Hret & _).
    destruct (Provider.compare_all (Provider.prevSlotsRef st) (map_to_list cur))
      as [rs c]. cbn [snd] in Hret. subst c. reflexivity. }
  rewrite Hfirst. unfold Provider.checkSlotChanges.
  cbn [Provider.currentSlotsMap Provider.prevSlotsRef]. fold cur.
  rewrite compare_all_unchanged; [repeat split |].
  intros k v Hin. apply elem_of_map_to_list in Hin.
  destruct (records_of_all_records cur k v Hrec Hin) as [s ->].
  exists s. split; [reflexivity | exact Hin].
Qed.








(** ** First and repeated violation polls *)

Lemma report_new_first `{JSEngine} (cur : list Provider.violation) :
  Provider.report_new [] cur = map Provider.violation_request cur.
Proof.
  induction cur as [|v cur IH]; [reflexivity |].
  cbn [Provider.report_new map]. rewrite IH. reflexivity.
Qed.

(** X6.  With no previous violation -- at mount, or after a response whose
    list was not an array -- every violation of the poll is reported, once
    and in order. *)
Theorem checkViolationChanges_first_reports_all `{JSEngine}
    (st : Provider.provider) (cur : list Provider.violation) :
  Provider.prevViolationsRef st = [] ->
  Provider.emitted (Provider.checkViolationChanges st (Some cur))
  = map Provider.violation_request cur.
Proof.
  intros Hprev. unfold Provider.checkViolationChanges.
  cbn [Provider.emitted]. rewrite Hprev. apply report_new_first.
Qed.

(** A response without a list makes the next poll report a violation that
    had been reported before. *)
Lemma checkViolationChanges_first_reports_all_witness :
  Provider.emitted
    (Provider.checkViolationChanges
       (Provider.final (Provider.checkViolationChanges saw_v1 None))
       (Some [violation_of (JStr "v1") "BP-1-A1234" "Z1" "10:00"]))
  = [Provider.violation_request
       (violation_of (JStr "v1") "BP-1-A1234" "Z1" "10:00")].
Proof.
  exact (checkViolationChanges_first_reports_all
           (Provider.final (Provider.checkViolationChanges saw_v1 None))
           [violation_of (JStr "v1") "BP-1-A1234" "Z1" "10:00"] eq_refl).
Defined.

Lemma same_violation_refl (v : Provider.violation) :
  id_is_not_NaN v = true -> Provider.same_violation v v = true.
Proof.
  unfold id_is_not_NaN, Provider.same_violation. intros Hid.
  apply orb_true_iff. left.
  destruct (Provider.v_id v) as [| |b|[| | |q]|s]; try discriminate; cbn.
  - reflexivity.
  - reflexivity.
  - destruct b; reflexivity.
  - reflexivity.
  - reflexivity.
  - apply Qeq_bool_iff. reflexivity.
  - apply String.eqb_refl.
Qed.

Lemma report_new_subset `{JSEngine} (prev seen : list Provider.violation) :
  forallb id_is_not_NaN seen = true ->
  (forall v, v ∈ seen -> v ∈ prev) ->
  Provider.report_new prev seen = [].
Proof.
  induction seen as [|v seen IH]; intros Hids Hsub; [reflexivity |].
  cbn [forallb] in Hids. apply andb_true_iff in Hids as [Hv Hids].
  cbn [Provider.report_new]. unfold Provider.isNewViolation.
  assert (Hk : existsb (fun p => Provider.same_violation p v) prev = true).
  { apply existsb_exists. exists v.
    split; [apply list_elem_of_In, Hsub; left |].
    apply same_violation_refl, Hv. }
  rewrite Hk. cbn [negb app]. apply IH; [exact Hids |].
  intros w Hw. apply Hsub. right. exact Hw.
Qed.

(** X7.  Polling the same list of violations twice in a row reports nothing
    the second time, with or without ids, as long as no id is [NaN]; the
    same holds for any later list drawn from the violations already seen. *)
Theorem checkViolationChanges_repeat_is_silent `{JSEngine}
    (st : Provider.provider) (seen later : list Provider.violation) :
  forallb id_is_not_NaN later = true ->
  (forall v, v ∈ later -> v ∈ seen) ->
  let once := Provider.final (Provider.checkViolationChanges st (Some seen)) in
  Provider.emitted (Provider.checkViolationChanges once (Some later)) = [].
Proof.
  intros Hids Hsub. cbv zeta. unfold Provider.checkViolationChanges.
  cbn [Provider.emitted Provider.final Provider.prevViolationsRef].
  apply report_new_subset; assumption.
Qed.

Lemma checkViolationChanges_repeat_is_silent_witness :
  Provider.emitted
    (Provider.checkViolationChanges
       (Provider.final
          (Provider.checkViolationChanges Provider.initial
             (Some [violation_of JUndef "BP-1-A1234" "Z1" "10:00";
                    violation_of (JStr "v2") "BP-2-B5678" "Z2" "10:05"])))
       (Some [violation_of (JStr "v2") "BP-2-B5678" "Z2" "10:05"]))
  = [].
Proof.
  apply (checkViolationChanges_repeat_is_silent Provider.initial
           [violation_of JUndef "BP-1-A1234" "Z1" "10:00";
            violation_of (JStr "v2") "BP-2-B5678" "Z2" "10:05"]
           [violation_of (JStr "v2") "BP-2-B5678" "Z2" "10:05"] eq_refl).
  intros v Hv. apply list_elem_of_singleton in Hv. subst v.
  right. left.
Defined.

(** ** The notification panel *)

Lemma count_zone_insert `{JSEngine} (byZone : gmap string Z)
    (v : Provider.violation) :
  Panel.count_zone byZone v
  = <[ Panel.zone_of v := default 0 (byZone !! Panel.zone_of v) + 1 ]> byZone.
Proof.
  unfold Panel.count_zone. cbv zeta.
  destruct (byZone !! Panel.zone_of v) as [n |]; [| reflexivity].
  cbn [default]. destruct (Z.eqb_spec n 0) as [-> | _]; reflexivity.
Qed.

Lemma byZone_lookup `{JSEngine} (l : list Provider.violation)
    (acc : gmap string Z) (z : string) :
  foldl Panel.count_zone acc l !! z
  = match acc !! z with
    | Some n => Some (n + filed_under z l)
    | None => if filed_under z l =? 0 then None else Some (filed_under z l)
    end.
Proof.
  revert acc. induction l as [|v l IH]; intros acc.
  - cbn [foldl]. unfold filed_under. rewrite filter_nil.
    change (Z.of_nat (length [])) with 0.
    destruct (acc !! z); [apply (f_equal Some); lia | reflexivity].
  - cbn [foldl]. rewrite IH, count_zone_insert.
    unfold filed_under. rewrite filter_cons.
    destruct (decide (Panel.zone_of v = z)) as [-> | Hne].
    + rewrite lookup_insert_eq. cbn [length].
      destruct (acc !! z) as [n |]; cbn [default].
      * apply (f_equal Some). unfold id. lia.
      * destruct (Z.eqb_spec (Z.of_nat
                    (S (length (filter (fun v0 => Panel.zone_of v0 = z) l)))) 0);
          [lia |].
        destruct (Z.eqb_spec (Z.of_nat
                    (length (filter (fun v0 => Panel.zone_of v0 = z) l))) 0);
          apply (f_equal Some); unfold id; lia.
    + rewrite lookup_insert_ne by exact Hne. reflexivity.
Qed.

(** X8.  In the violation summary each zone is filed with the number of
    active violations in that zone (violations without a zone go under
    "Unknown Zone"), and a zone without violations has no entry. *)
Theorem violationSummary_counts_by_zone `{JSEngine}
    (activeViolations : list Provider.violation) (z : string) :
  Panel.byZone (Panel.summarize activeViolations) !! z
  = if filed_under z activeViolations =? 0 then None
    else Some (filed_under z activeViolations).
Proof.
  unfold Panel.summarize. cbn [Panel.byZone].
  rewrite byZone_lookup, lookup_empty. reflexivity.
Qed.




Example summary_of_three :
  Panel.byZone
    (Panel.summarize
       [violation_of (JStr "v1") "BP-1-A1234" "Z1" "10:00";
        {| Provider.v_id := JStr "v2"; Provider.v_license_plate := JStr "X";
           Provider.v_zone := JUndef; Provider.v_timestamp := JStr "10:01" |};
        violation_of (JStr "v3") "BP-2-B5678" "Z1" "10:05"])
  = {[ "Z1" := 2; "Unknown Zone" := 1 ]}.
Proof. vm_compute. reflexivity. Qed.

(** ** Deleting a rectangle *)

Lemma filter_index_delete {A : Type} (l : list A) (a i : nat) :
  map snd (List.filter (fun ir : nat * A => negb (Nat.eqb ir.1 (a + i)))
             (combine (seq a (length l)) l))
  = delete i l.
Proof.
  revert a i. induction l as [|x l IH]; intros a i; [reflexivity |].
  cbn [length seq combine List.filter fst].
  destruct i as [|i].
  - rewrite Nat.add_0_r, Nat.eqb_refl. cbn [negb].
    assert (Hkeep : forall b (l' : list A), (a < b)%nat ->
              List.filter (fun ir : nat * A => negb (Nat.eqb ir.1 a))
                (combine (seq b (length l')) l')
              = combine (seq b (length l')) l').
    { clear. intros b l'. revert b. induction l' as [|y l' IH]; intros b Hb;
        [reflexivity |].
      cbn [length seq combine List.filter fst].
      destruct (Nat.eqb_spec b a); [lia |]. cbn [negb].
      rewrite IH by lia. reflexivity. }
    rewrite Hkeep by lia.
    cbn [delete list_delete].
    clear. generalize (S a). induction l as [|y l IH]; intros b;
      [reflexivity |].
    cbn [length seq combine map snd]. rewrite IH. reflexivity.
  - destruct (Nat.eqb_spec a (a + S i)); [lia |]. cbn [negb map snd].
    cbn [delete list_delete]. f_equal.
    replace (a + S i)%nat with (S a + i)%nat by lia. apply IH.
Qed.

(** X10.  A confirmed delete removes exactly the rectangle at the given
    index of the current mode's collection, the others keeping their order;
    an index past the end, or a declined confirmation, changes nothing; the
    other collection and the drawing state are never touched. *)
Theorem handleDelete_removes_index `{JSEngine} (st : Calibration.editor)
    (index : nat) (confirmed : bool) :
  let m := Calibration.mode_of st in
  let out := (Calibration.handleDelete st index confirmed).1 in
  Calibration.rectangles out m
  = (if confirmed then delete index (Calibration.rectangles st m)
     else Calibration.rectangles st m) /\
  (length (Calibration.rectangles st m) <= index ->
   Calibration.rectangles out m = Calibration.rectangles st m)%nat /\
  Calibration.rectangles out (other m) = Calibration.rectangles st (other m) /\
  Calibration.mode_of out = m /\
  Calibration.currentRect out = Calibration.currentRect st /\
  Calibration.isDrawing out = Calibration.isDrawing st.
Proof.
  cbv zeta. unfold Calibration.handleDelete. cbn [fst].
  pose proof (filter_index_delete
                (Calibration.rectangles st (Calibration.mode_of st)) 0 index)
    as Hdel.
  cbn [Nat.add] in Hdel.
  destruct st as [m rs ri c d saving saved].
  cbn [Calibration.mode_of] in *.
  destruct confirmed, m;
    cbn [Calibration.set_rectangles Calibration.rectangles
         Calibration.rectangles_slots Calibration.rectangles_illegal
         Calibration.mode_of Calibration.currentRect Calibration.isDrawing
         other] in *;
    rewrite ?Hdel;
    (split; [reflexivity |]);
    (split; [intros Hlen; try reflexivity;
            rewrite delete_take_drop, take_ge, drop_ge, app_nil_r by lia;
            reflexivity |]);
    repeat split.
Qed.

Example delete_the_middle_one :
  map Calibration.rect_id
    (Calibration.rectangles_slots
       (Calibration.handleDelete
          (Calibration.set_rectangles Calibration.mount Calibration.slots
             [rect_of "A" 0 0 10 10; rect_of "B" 20 0 10 10;
              rect_of "C" 40 0 10 10])
          1 true).1)
  = ["A"; "C"].
Proof. vm_compute. reflexivity. Qed.

(** ** Pointer events *)

Lemma handleMouseUp_keeps `{JSEngine} (st : Calibration.editor)
    (r : Calibration.refs) (e : Calibration.mouse_event)
    (answer : option string) (m : Calibration.mode) :
  Calibration.rectangles st m
    `prefix_of` Calibration.rectangles (Calibration.handleMouseUp st r e answer).1 m
  /\ Calibration.mode_of (Calibration.handleMouseUp st r e answer).1
     = Calibration.mode_of st.
Proof.
  destruct st as [m0 rs ri c d saving saved].
  unfold Calibration.handleMouseUp.
  cbn [Calibration.isDrawing Calibration.currentRect Calibration.mode_of].
  destruct d; [| split; [reflexivity | reflexivity]].
  destruct c as [cur |]; [| split; reflexivity].
  destruct (Calibration.canvasRef r) as [canvas |]; [| split; reflexivity].
  destruct (Calibration.imageRef r) as [image |]; [| split; reflexivity].
  destruct (Calibration.complete image); cbn [negb]; [| split; reflexivity].
  match goal with
  | |- context [if ?c then _ else _] => destruct c
  end; [| split; reflexivity].
  destruct answer as [id |]; [| split; reflexivity].
  destruct (negb (String.eqb id "") && negb (String.eqb (trim id) ""));
    [| split; reflexivity].
  destruct m0, m; cbn; split; try reflexivity; apply prefix_app_r; reflexivity.
Qed.

Lemma handle_keeps `{JSEngine} (st : Calibration.editor) (p : pointer)
    (m : Calibration.mode) :
  Calibration.rectangles st m `prefix_of` Calibration.rectangles (handle st p) m
  /\ Calibration.mode_of (handle st p) = Calibration.mode_of st.
Proof.
  destruct p as [r e | r e | r e answer |]; cbn [handle].
  - destruct st as [m0 rs ri c d saving saved]. destruct m; split; reflexivity.
  - destruct st as [m0 rs ri c d saving saved].
    unfold Calibration.handleMouseMove.
    cbn [Calibration.isDrawing Calibration.currentRect].
    destruct d, c, m; split; reflexivity.
  - apply handleMouseUp_keeps.
  - destruct st as [m0 rs ri c d saving saved]. destruct m; split; reflexivity.
Qed.

(** X11.  Whatever pointer events arrive, in whatever order and with
    whatever answers to the prompt, the rectangles the editor held stay at
    the front of their collection, in order: drawing only ever appends, and
    never changes the mode. *)
Theorem pointer_events_only_append `{JSEngine} (events : list pointer)
    (st : Calibration.editor) (m : Calibration.mode) :
  Calibration.rectangles st m
    `prefix_of` Calibration.rectangles (foldl handle st events) m /\
  Calibration.mode_of (foldl handle st events) = Calibration.mode_of st.
Proof.
  revert st. induction events as [|p events IH]; intros st; cbn [foldl].
  - split; reflexivity.
  - destruct (IH (handle st p)) as [Hpre Hmode].
    destruct (handle_keeps st p m) as [Hpre1 Hmode1].
    split; [etransitivity; eassumption | congruence].
Qed.

Lemma moves_keep `{JSEngine} (moves : list pointer) (st : Calibration.editor) :
  forallb is_move moves = true ->
  Calibration.to_idle (foldl handle st moves) = Calibration.to_idle st.
Proof.
  revert st. induction moves as [|p moves IH]; intros st Hall; [reflexivity |].
  cbn [forallb] in Hall. apply andb_true_iff in Hall as [Hp Hall].
  cbn [foldl]. rewrite (IH _ Hall).
  destruct p as [r e | r e | r e answer |]; try discriminate.
  cbn [handle]. unfold Calibration.handleMouseMove.
  destruct (Calibration.isDrawing st), (Calibration.currentRect st);
    reflexivity.
Qed.

(** X12.  A drag that leaves the canvas commits nothing: pointer-down, any
    number of moves, then pointer-leave bring an idle editor back to exactly
    the state it was in. *)
Theorem pointer_leave_cancels `{JSEngine} (st : Calibration.editor)
    (r : Calibration.refs) (e : Calibration.mouse_event)
    (moves : list pointer) :
  Calibration.isDrawing st = false ->
  Calibration.currentRect st = None ->
  forallb is_move moves = true ->
  handle (foldl handle (handle st (PointerDown r e)) moves) PointerLeave = st.
Proof.
  intros Hidle Hnone Hmoves. cbn [handle].
  unfold Calibration.handleMouseLeave. rewrite (moves_keep _ _ Hmoves).
  destruct st as [m0 rs ri c d saving saved].
  cbn [Calibration.isDrawing Calibration.currentRect] in Hidle, Hnone.
  subst c d. reflexivity.
Qed.

Lemma pointer_leave_cancels_witness :
  handle
    (foldl handle (handle Calibration.mount (PointerDown page (mouse_at 5 5)))
       [PointerMove page (mouse_at 50 60); PointerMove page (mouse_at 90 95)])
    PointerLeave
  = Calibration.mount.
Proof.
  exact (pointer_leave_cancels Calibration.mount page (mouse_at 5 5)
           [PointerMove page (mouse_at 50 60);
            PointerMove page (mouse_at 90 95)] eq_refl eq_refl eq_refl).
Defined.

(** ** What is saved *)





(** ** From a drag to the box on the canvas *)

Lemma Qeq_bool_pos (q : Q) : (0 < q)%Q -> Qeq_bool q 0 = false.
Proof.
  intros Hq. destruct (Qeq_bool q 0) eqn:E; [| reflexivity].
  apply Qeq_bool_eq in E. rewrite E in Hq. discriminate.
Qed.






(** ** Reloading what was saved *)






(** ** Alerts of the dashboard *)

Lemma num_lt_not_le (a b : jsnum) :
  num_lt a b = true -> Builtins.num_le b a = false.
Proof.
  unfold Builtins.num_le. intros Hlt.
  destruct a, b; try discriminate; rewrite ?Hlt; reflexivity.
Qed.

Lemma num_lt_asym (a b : jsnum) : num_lt a b = true -> num_lt b a = false.
Proof.
  destruct a as [| | | x], b as [| | | y]; cbn; try reflexivity;
    try discriminate.
  destruct (Qlt_le_dec x y), (Qlt_le_dec y x); try reflexivity;
    try discriminate.
  lra.
Qed.

Lemma num_lt_irrefl (a : jsnum) : num_lt a a = false.
Proof.
  destruct (num_lt a a) eqn:E; [| reflexivity].
  rewrite (num_lt_asym _ _ E) in E. discriminate.
Qed.

Lemma above_95_above_85 (c : jsnum) :
  num_lt (Fin 95) c = true -> num_lt (Fin 85) c = true.
Proof.
  destruct c as [| | | x]; cbn; try reflexivity; try discriminate.
  destruct (Qlt_le_dec 95 x), (Qlt_le_dec 85 x); try reflexivity;
    try discriminate.
  lra.
Qed.

Lemma or_zero_not_NaN (field : option jsnum) : Dashboard.or_zero field <> NaN.
Proof.
  unfold Dashboard.or_zero. destruct field as [[| | | q] |]; cbn;
    try discriminate.
  destruct (negb (Qis_zero q)); discriminate.
Qed.

Lemma num_le_not_gt (a b : jsnum) :
  a <> NaN -> b <> NaN -> Builtins.num_le a b = negb (num_gt a b).
Proof.
  intros Ha Hb. unfold Builtins.num_le, num_gt.
  destruct a, b; try reflexivity; congruence.
Qed.

(** X17.  A reading equal to the one before raises no alert, whatever its
    values: [checkForNotifications(s, s)] adds no notification. *)
Theorem checkForNotifications_unchanged_is_silent `{JSEngine}
    (s : Dashboard.stats) :
  Dashboard.checkForNotifications s s = [].
Proof.
  unfold Dashboard.checkForNotifications, Dashboard.alerts, num_gt.
  set (c := Dashboard.or_zero (Dashboard.occupancy s)).
  set (v := Dashboard.or_zero (Dashboard.activeViolations s)).
  rewrite (num_lt_irrefl v). cbn [andb].
  destruct (num_lt (Fin 85) c) eqn:E85;
    [rewrite (num_lt_not_le _ _ E85) | ];
    (destruct (num_lt (Fin 95) c) eqn:E95;
       [rewrite (num_lt_not_le _ _ E95) | ]);
    cbn [andb]; rewrite ?andb_false_r; reflexivity.
Qed.

(** X18.  One call raises at most three alerts, no two of the same kind,
    and never a high-occupancy warning together with a normalization, new
    violations together with resolved ones, or a critical alert together
    with a normalization. *)
Theorem alerts_are_exclusive (currentStats prevStats : Dashboard.stats) :
  let kinds := kind_of <$> Dashboard.alerts currentStats prevStats in
  NoDup kinds /\
  (length kinds <= 3)%nat /\
  ~ (KHighOccupancy ∈ kinds /\ KNormalized ∈ kinds) /\
  ~ (KNewViolations ∈ kinds /\ KResolved ∈ kinds) /\
  ~ (KCritical ∈ kinds /\ KNormalized ∈ kinds).
Proof.
  cbv zeta. unfold Dashboard.alerts, num_gt.
  set (c := Dashboard.or_zero (Dashboard.occupancy currentStats)).
  set (p := Dashboard.or_zero (Dashboard.occupancy prevStats)).
  set (v := Dashboard.or_zero (Dashboard.activeViolations currentStats)).
  set (w := Dashboard.or_zero (Dashboard.activeViolations prevStats)).
  assert (Hocc : num_lt (Fin 85) c = true -> Builtins.num_le c (Fin 85) = false)
    by apply num_lt_not_le.
  assert (Hcrit : num_lt (Fin 95) c = true -> Builtins.num_le c (Fin 85) = false)
    by (intros Hc; apply num_lt_not_le, above_95_above_85, Hc).
  assert (Hvio : num_lt w v = true -> num_lt v w = false)
    by apply num_lt_asym.
  destruct (num_lt (Fin 85) c); [rewrite (Hocc eq_refl) | ];
    (destruct (num_lt (Fin 95) c); [rewrite ?(Hcrit eq_refl) | ]);
    (destruct (num_lt w v); [rewrite (Hvio eq_refl) | ]);
    destruct (Builtins.num_le p (Fin 85)), (Builtins.num_le p (Fin 95)),
      (Builtins.num_le c (Fin 85)), (num_lt (Fin 85) p), (num_lt v w),
      (Dashboard.num_ge v (Fin 0));
    cbn [andb app fmap list_fmap kind_of];
    apply (bool_decide_unpack _); vm_compute; exact I.
Qed.

Lemma raised_app (k : kind) (l1 l2 : list Dashboard.alert) :
  raised k (l1 ++ l2) = (raised k l1 + raised k l2)%nat.
Proof. unfold raised. rewrite filter_app, length_app. reflexivity. Qed.

Lemma alerts_crossing (c p : Dashboard.stats) :
  (raised KHighOccupancy (Dashboard.alerts c p) + Nat.b2n (high p)
   = raised KNormalized (Dashboard.alerts c p) + Nat.b2n (high c))%nat.
Proof.
  unfold Dashboard.alerts, high.
  rewrite !(num_le_not_gt _ (Fin 85))
    by (try apply or_zero_not_NaN; discriminate).
  destruct (num_gt (Dashboard.or_zero (Dashboard.occupancy c)) (Fin 85)),
    (num_gt (Dashboard.or_zero (Dashboard.occupancy p)) (Fin 85)),
    (num_gt (Dashboard.or_zero (Dashboard.activeViolations c))
       (Dashboard.or_zero (Dashboard.activeViolations p))),
    (num_lt (Dashboard.or_zero (Dashboard.activeViolations c))
       (Dashboard.or_zero (Dashboard.activeViolations p))
     && Dashboard.num_ge (Dashboard.or_zero (Dashboard.activeViolations c))
          (Fin 0)),
    (num_gt (Dashboard.or_zero (Dashboard.occupancy c)) (Fin 95)
     && Builtins.num_le (Dashboard.or_zero (Dashboard.occupancy p)) (Fin 95));
    reflexivity.
Qed.

(** X19.  Along a series of readings, each call being given the reading
    before as [prevStats], high-occupancy warnings and normalizations
    alternate: their numbers differ by at most one, the difference being
    fixed by whether the first and the last reading are above 85. *)
Theorem warnings_and_normalizations_alternate (first : Dashboard.stats)
    (readings : list Dashboard.stats) :
  (raised KHighOccupancy (along first readings) + Nat.b2n (high first)
   = raised KNormalized (along first readings)
     + Nat.b2n (high (default first (last readings))))%nat.
Proof.
  revert first. induction readings as [|s rest IH]; intros first.
  - reflexivity.
  - cbn [along]. rewrite !raised_app.
    pose proof (alerts_crossing s first) as Hstep.
    specialize (IH s).
    replace (default first (last (s :: rest)))
      with (default s (last rest))
      by (rewrite last_cons; destruct (last rest); reflexivity).
    lia.
Qed.

Example three_crossings :
  kind_of <$> along (reading 50 0)
                [reading 90 0; reading 97 0; reading 80 0; reading 86 0]
  = [KHighOccupancy; KCritical; KNormalized; KHighOccupancy].
Proof. vm_compute. reflexivity. Qed.






(** ** Colours *)

Lemma colour_tables_agree (u : string) :
  (if String.eqb u "OCCUPIED" then "#EF4444"
   else if String.eqb u "ILLEGAL_ZONE" then "#F97316"
   else if String.eqb u "ILLEGAL_OCCUPIED" then "#991B1B"
   else "#22C55E")
  = SlotCard.borderColor (SlotCard.config_of u) /\
  SlotCard.border (Some (SlotCard.borderColor (SlotCard.config_of u))) u
  = SlotCard.borderColor (SlotCard.config_of u).
Proof.
  unfold SlotCard.border, SlotCard.config_of, SlotCard.statusConfig.
  cbn [SlotCard.property].
  rewrite (String.eqb_sym "AVAILABLE" u), (String.eqb_sym "OCCUPIED" u),
    (String.eqb_sym "ILLEGAL_ZONE" u), (String.eqb_sym "ILLEGAL_OCCUPIED" u).
  destruct (String.eqb_spec u "AVAILABLE") as [-> | _]; [split; reflexivity |].
  destruct (String.eqb u "OCCUPIED"); [split; reflexivity |].
  destruct (String.eqb u "ILLEGAL_ZONE"); [split; reflexivity |].
  destruct (String.eqb u "ILLEGAL_OCCUPIED"); split; reflexivity.
Qed.

(** X21.  The colour the dashboard computes for a slot is always the border
    colour the slot card has in its own table for the status the dashboard
    stores, so the card looks the same whether it uses the colour it is
    given or its own; and [getColorForStatus] throws exactly when computing
    the stored status throws (a truthy status that is not a string). *)
Theorem dashboard_colour_is_card_colour `{JSEngine} (status : jsval) :
  match Dashboard.statusOf status with
  | Some stored =>
      Dashboard.getColorForStatus status
      = Some (SlotCard.borderColor (SlotCard.config_of stored)) /\
      SlotCard.border (Dashboard.getColorForStatus status) stored
      = SlotCard.borderColor (SlotCard.config_of stored)
  | None => Dashboard.getColorForStatus status = None
  end.
Proof.
  unfold Dashboard.statusOf, Dashboard.getColorForStatus.
  destruct (truthy status).
  - destruct status as [| | b | n | s]; try reflexivity.
    destruct (colour_tables_agree (toUpperCase s)) as [-> Hborder].
    split; [reflexivity | exact Hborder].
  - destruct (colour_tables_agree "AVAILABLE") as [_ Hborder].
    split; [reflexivity | exact Hborder].
Qed.

(** ** Pages of the event log *)

Lemma rows_per_page_pos (ps : EventLog.page_size) :
  0 < EventLog.rows_per_page ps.
Proof. destruct ps; reflexivity. Qed.

Lemma totalPages_bounds {A : Type} (rows : list A)
    (ps : EventLog.page_size) :
  let n := EventLog.totalPages rows ps in
  let size := EventLog.rows_per_page ps in
  (n - 1) * size < Z.of_nat (length rows) <= n * size.
Proof.
  cbv zeta. unfold EventLog.totalPages.
  set (len := Z.of_nat (length rows)).
  set (size := EventLog.rows_per_page ps).
  pose proof (rows_per_page_pos ps) as Hpos. fold size in Hpos.
  assert (Hq : (0 < inject_Z size)%Q).
  { change (inject_Z 0 < inject_Z size)%Q. rewrite <- Zlt_Qlt. exact Hpos. }
  pose proof (Qle_ceiling (inject_Z len / inject_Z size)) as Hle.
  pose proof (Qceiling_lt (inject_Z len / inject_Z size)) as Hlt.
  set (n := Qceiling (inject_Z len / inject_Z size)) in *.
  split.
  - rewrite Zlt_Qlt, inject_Z_mult.
    apply (Qmult_lt_r _ _ (/ inject_Z size)); [apply Qinv_lt_0_compat, Hq |].
    rewrite <- Qmult_assoc, Qmult_inv_r, Qmult_1_r by lra. exact Hlt.
  - rewrite Zle_Qle, inject_Z_mult.
    apply (Qmult_le_r _ _ (/ inject_Z size)); [apply Qinv_lt_0_compat, Hq |].
    rewrite <- Qmult_assoc, Qmult_inv_r, Qmult_1_r by lra. exact Hle.
Qed.

Lemma paginatedData_chunk {A : Type} (rows : list A) (p : Z)
    (ps : EventLog.page_size) :
  1 <= p ->
  EventLog.paginatedData rows p ps
  = take (Z.to_nat (EventLog.rows_per_page ps))
      (drop (Z.to_nat ((p - 1) * EventLog.rows_per_page ps)) rows).
Proof.
  intros Hp. unfold EventLog.paginatedData, Builtins.slice.
  pose proof (rows_per_page_pos ps) as Hpos.
  set (size := EventLog.rows_per_page ps) in *.
  set (len := Z.of_nat (length rows)).
  assert (Hlen : length rows = Z.to_nat len) by (subst len; lia).
  destruct (Z.ltb_spec ((p - 1) * size) 0) as [Hneg | _]; [nia |].
  destruct (Z.ltb_spec (p * size) 0) as [Hneg | _]; [nia |].
  destruct (Z_le_gt_dec ((p - 1) * size) len) as [Hin | Hout].
  - rewrite (Z.min_l _ _ Hin).
    destruct (Z_le_gt_dec (p * size) len) as [Hfull | Hpart].
    + rewrite (Z.min_l _ _ Hfull). f_equal. nia.
    + rewrite (Z.min_r (p * size) len) by lia.
      rewrite !take_ge; [reflexivity | |]; rewrite length_drop; nia.
  - rewrite (Z.min_r ((p - 1) * size) len) by lia.
    rewrite (drop_ge rows (Z.to_nat len)) by lia.
    rewrite (drop_ge rows (Z.to_nat ((p - 1) * size))) by lia.
    rewrite !take_nil. reflexivity.
Qed.

Lemma chunks_concat {A : Type} (size n : nat) (rows : list A) :
  (length rows <= n * size)%nat ->
  concat ((fun i => take size (drop (i * size) rows)) <$> seq 0 n) = rows.
Proof.
  revert rows. induction n as [|n IH]; intros rows Hlen.
  - destruct rows; [reflexivity | cbn in Hlen; lia].
  - cbn [seq fmap list_fmap concat]. rewrite <- seq_shift, map_map.
    cbn [Nat.mul Nat.add drop].
    change (drop 0 rows) with rows.
    transitivity (take size rows ++ drop size rows)%list;
      [| apply take_drop].
    f_equal.
    rewrite <- (IH (drop size rows)) at 1 by (rewrite length_drop; lia).
    f_equal. apply map_ext. intros i. rewrite drop_drop. reflexivity.
Qed.

(** X22.  The pages 1 to [totalPages] cut the rows into consecutive pieces:
    laid end to end they are the rows again, nothing lost, repeated or
    reordered. *)
Theorem pages_partition_rows {A : Type} (rows : list A)
    (pageSize : EventLog.page_size) :
  concat (pages rows pageSize) = rows.
Proof.
  unfold pages.
  pose proof (totalPages_bounds rows pageSize) as [_ Hle].
  pose proof (rows_per_page_pos pageSize) as Hpos.
  set (n := EventLog.totalPages rows pageSize) in *.
  set (size := EventLog.rows_per_page pageSize) in *.
  transitivity
    (concat ((fun i => take (Z.to_nat size) (drop (i * Z.to_nat size) rows))
               <$> seq 0 (Z.to_nat n)));
    [| apply chunks_concat; nia].
  f_equal. rewrite <- seq_shift.
  change (@fmap list _ _ _ ?f (map S ?l)) with (map f (map S l)).
  rewrite map_map. apply map_ext. intros i.
  rewrite paginatedData_chunk by lia. fold size. do 2 f_equal. nia.
Qed.

(** X23.  A page within the range holds as many rows as its caption
    announces (from a to b), at least one and at most a page size, and
    exactly a page size before the last page; a page past [totalPages]
    holds none. *)
Theorem page_has_the_rows_it_announces {A : Type} (rows : list A) (p : Z)
    (pageSize : EventLog.page_size) :
  1 <= p ->
  let page := EventLog.paginatedData rows p pageSize in
  let total := EventLog.totalPages rows pageSize in
  let size := EventLog.rows_per_page pageSize in
  let '(from, to) := EventLog.showing rows p pageSize in
  (p <= total ->
   Z.of_nat (length page) = to - from + 1 /\
   1 <= Z.of_nat (length page) <= size /\
   (p < total -> Z.of_nat (length page) = size)) /\
  (total < p -> page = []).
Proof.
  intros Hp. cbv zeta. unfold EventLog.showing.
  rewrite (paginatedData_chunk rows p pageSize Hp).
  pose proof (totalPages_bounds rows pageSize) as [Hlo Hhi].
  pose proof (rows_per_page_pos pageSize) as Hpos.
  set (total := EventLog.totalPages rows pageSize) in *.
  set (size := EventLog.rows_per_page pageSize) in *.
  split.
  - intros Hin. rewrite length_take, length_drop.
    split; [| split]; [| | intros Hlt]; nia.
  - intros Hout. rewrite drop_ge by nia. apply take_nil.
Qed.

Lemma page_has_the_rows_it_announces_witness :
  (3 <= EventLog.totalPages (seq 0 23) EventLog.Ten ->
   Z.of_nat (length (EventLog.paginatedData (seq 0 23) 3 EventLog.Ten))
   = 23 - 21 + 1 /\
   1 <= Z.of_nat (length (EventLog.paginatedData (seq 0 23) 3 EventLog.Ten))
     <= 10 /\
   (3 < EventLog.totalPages (seq 0 23) EventLog.Ten ->
    Z.of_nat (length (EventLog.paginatedData (seq 0 23) 3 EventLog.Ten))
    = 10)) /\
  (EventLog.totalPages (seq 0 23) EventLog.Ten < 3 ->
   EventLog.paginatedData (seq 0 23) 3 EventLog.Ten = []).
Proof.
  exact (page_has_the_rows_it_announces (seq 0 23) 3 EventLog.Ten
           ltac:(lia)).
Defined.

Example third_page_of_23 :
  EventLog.totalPages (seq 0 23) EventLog.Ten = 3 /\
  EventLog.paginatedData (seq 0 23) 3 EventLog.Ten = [20; 21; 22]%nat /\
  EventLog.showing (seq 0 23) 3 EventLog.Ten = (21, 23).
Proof. vm_compute. repeat split. Qed.

(** X24.  On a page within the range the two buttons keep the page within
    the range, and each is disabled exactly when pressing it would not
    move. *)
Theorem navigation_stays_in_range {A : Type} (rows : list A) (p : Z)
    (pageSize : EventLog.page_size) :
  let total := EventLog.totalPages rows pageSize in
  1 <= p <= total ->
  1 <= EventLog.previousPage p <= total /\
  1 <= EventLog.nextPage total p <= total /\
  (EventLog.previousDisabled p = true <-> EventLog.previousPage p = p) /\
  (EventLog.nextDisabled total p = true <-> EventLog.nextPage total p = p).
Proof.
  cbv zeta. intros Hp.
  unfold EventLog.previousPage, EventLog.nextPage, EventLog.previousDisabled,
    EventLog.nextDisabled.
  rewrite !Z.eqb_eq. lia.
Qed.

Lemma navigation_stays_in_range_witness :
  1 <= EventLog.previousPage 3 <= EventLog.totalPages (seq 0 23) EventLog.Ten
  /\
  1 <= EventLog.nextPage (EventLog.totalPages (seq 0 23) EventLog.Ten) 3
    <= EventLog.totalPages (seq 0 23) EventLog.Ten /\
  (EventLog.previousDisabled 3 = true <-> EventLog.previousPage 3 = 3) /\
  (EventLog.nextDisabled (EventLog.totalPages (seq 0 23) EventLog.Ten) 3
   = true
   <-> EventLog.nextPage (EventLog.totalPages (seq 0 23) EventLog.Ten) 3 = 3).
Proof.
  apply (navigation_stays_in_range (seq 0 23) 3 EventLog.Ten).
  vm_compute. split; discriminate.
Defined.

(** X25.  On the first page the Next button is enabled and leads out of the
    range, to page 0, exactly when the log has no rows: then [totalPages] is
    0, and page 0 shows nothing. *)
Theorem next_leaves_the_range_on_an_empty_log {A : Type} (rows : list A)
    (pageSize : EventLog.page_size) :
  let total := EventLog.totalPages rows pageSize in
  (rows = [] <->
   EventLog.nextDisabled total 1 = false /\ EventLog.nextPage total 1 = 0) /\
  (rows = [] ->
   total = 0 /\ EventLog.paginatedData rows 0 pageSize = []).
Proof.
  cbv zeta.
  pose proof (totalPages_bounds rows pageSize) as [Hlo Hhi].
  pose proof (rows_per_page_pos pageSize) as Hpos.
  unfold EventLog.nextDisabled, EventLog.nextPage.
  set (total := EventLog.totalPages rows pageSize) in *.
  set (size := EventLog.rows_per_page pageSize) in *.
  assert (Hzero : rows = [] <-> total = 0).
  { split.
    - intros ->. cbn [length] in Hlo, Hhi. nia.
    - intros Ht. rewrite Ht in Hhi. destruct rows; [reflexivity |].
      cbn [length] in Hhi. lia. }
  split.
  - rewrite Hzero, Z.eqb_neq. 
    assert (0 <= total) by nia. lia.
  - intros Hrows. split; [apply Hzero, Hrows |].
    subst rows. destruct pageSize; reflexivity.
Qed.

(** ** The overlay *)

Lemma append_empty_r (s : string) : (s ++ "")%string = s.
Proof.
  induction s as [|c s IH]; [reflexivity |].
  change (String c (s ++ "") = String c s). f_equal. exact IH.
Qed.

Lemma in_zone_textual (zone : jsval) (zoneId : string) :
  textual zone ->
  exists b : bool,
    Overlay.in_zone zone zoneId = Some b /\
    (b = true <-> exists s, zone = JStr s /\ occurs zoneId s).
Proof.
  intros Htext. unfold Overlay.in_zone.
  destruct zone as [| | b | n | s]; try contradiction; cbn [strict_eq].
  - exists false. split; [reflexivity |].
    split; [discriminate | intros (s & Hs & _); discriminate].
  - exists false. split; [reflexivity |].
    split; [discriminate | intros (s & Hs & _); discriminate].
  - destruct (String.eqb_spec s zoneId) as [-> | Hne].
    + exists true. split; [reflexivity |]. split; [| reflexivity].
      intros _. exists zoneId. split; [reflexivity |].
      exists "", "". change (zoneId = (zoneId ++ "")%string).
      symmetry. apply append_empty_r.
    + exists (includes s zoneId). split; [reflexivity |].
      rewrite includes_spec. split.
      * intros Hocc. exists s. split; [reflexivity | exact Hocc].
      * intros (s' & [= <-] & Hocc). exact Hocc.
Qed.

(** X26.  When the zone of every active violation is a string or absent,
    [hasViolation] returns, and a zone is marked as violated exactly when
    its id occurs somewhere inside the zone text of some active violation:
    the match is by substring, so a violation in zone "Z10" also marks zone
    "Z1". *)
Theorem hasViolation_is_substring_match
    (activeViolations : list Provider.violation) (zoneId : string) :
  Forall (fun v => textual (Provider.v_zone v)) activeViolations ->
  exists b : bool,
    Overlay.hasViolation activeViolations zoneId = Some b /\
    (b = true <->
     exists v s, v ∈ activeViolations /\ Provider.v_zone v = JStr s /\
                 occurs zoneId s).
Proof.
  induction activeViolations as [|v rest IH]; intros Hall.
  - exists false. split; [reflexivity |].
    split; [discriminate |]. intros (v & s & Hin & _). inversion Hin.
  - apply Forall_cons in Hall as [Hv Hrest]. cbn [Overlay.hasViolation].
    destruct (in_zone_textual (Provider.v_zone v) zoneId Hv)
      as (b & -> & Hb).
    destruct b.
    + exists true. split; [reflexivity |]. split; [| reflexivity].
      intros _. destruct (proj1 Hb eq_refl) as (s & Hs & Hocc).
      exists v, s. split; [apply elem_of_cons; left; reflexivity |]. split; assumption.
    + destruct (IH Hrest) as (b & -> & Hrec). exists b.
      split; [reflexivity |]. rewrite Hrec. split.
      * intros (v' & s & Hin & Hs & Hocc). exists v', s.
        split; [apply elem_of_cons; right; exact Hin |]. split; assumption.
      * intros (v' & s & Hin & Hs & Hocc).
        apply elem_of_cons in Hin as [-> | Hin].
        -- assert (false = true) as Habs; [| discriminate Habs].
           apply Hb. exists s. split; assumption.
        -- exists v', s. split; [exact Hin |]. split; assumption.
Qed.

Lemma hasViolation_is_substring_match_witness :
  exists b : bool,
    Overlay.hasViolation [parked_in "Z7"; parked_in "Z10"] "Z1" = Some b /\
    (b = true <->
     exists v s, v ∈ [parked_in "Z7"; parked_in "Z10"] /\
                 Provider.v_zone v = JStr s /\ occurs "Z1" s).
Proof.
  apply (hasViolation_is_substring_match [parked_in "Z7"; parked_in "Z10"]
           "Z1").
  repeat constructor.
Defined.

Example Z10_marks_Z1 :
  Overlay.hasViolation [parked_in "Z7"; parked_in "Z10"] "Z1" = Some true.
Proof. reflexivity. Qed.

Lemma frames_are_rounded_boxes `{JSEngine} (i : Overlay.img)
    (states : option (gmap string jsval)) (sx sy : jsnum)
    (entries : list (string * list jsval)) :
  Overlay.scaleX i = sx -> Overlay.scaleY i = sy ->
  Forall (fun kv => length kv.2 = 4%nat) entries ->
  map (fun kv => geometry (Overlay.slot_frame i states kv)) entries
  = map (fun r => rounded (Calibration.toDisplay sx sy r))
      (omap Calibration.rect_of_entry
         (prod_map id Calibration.CoordsArray <$> entries)).
Proof.
  intros Hsx Hsy Hall. induction Hall as [|[k coords] rest Hlen _ IH];
    [reflexivity |].
  cbn [snd] in Hlen.
  destruct coords as [|c0 [|c1 [|c2 [|c3 [|c4 more]]]]]; try discriminate.
  cbn [map fmap list_fmap omap list_omap prod_map fst snd id].
  unfold Calibration.rect_of_entry at 1. cbn [fst snd map].
  f_equal; [| exact IH].
  unfold Overlay.slot_frame, Overlay.place. rewrite Hsx, Hsy. reflexivity.
Qed.

(** X27.  The live feed draws every calibrated slot where the calibration
    editor draws it, to the nearest pixel: for a calibration whose entries
    all have four members, an image with a natural size and the same
    displayed size in both views, the frames of [drawOverlay] are the boxes
    of [drawCanvas] for the loaded calibration with each number rounded. *)
Theorem overlay_frames_are_editor_boxes `{JSEngine}
    (calibratedSlots : gmap string (list jsval))
    (slotStates : option (gmap string jsval))
    (nw nh : Q) (w h cw ch : jsnum) (container : Calibration.client_rect) :
  (0 < nw)%Q -> (0 < nh)%Q ->
  map_Forall (fun _ coords => length coords = 4%nat) calibratedSlots ->
  let image :=
    {| Overlay.naturalWidth := Fin nw; Overlay.naturalHeight := Fin nh;
       Overlay.width := w; Overlay.height := h;
       Overlay.clientWidth := cw; Overlay.clientHeight := ch |} in
  let editor_page :=
    {| Calibration.canvasRef :=
         Some {| Calibration.canvas_width := cw;
                 Calibration.canvas_height := ch |};
       Calibration.imageRef :=
         Some {| Calibration.complete := true;
                 Calibration.naturalWidth := Fin nw;
                 Calibration.naturalHeight := Fin nh |};
       Calibration.containerRef := Some container |} in
  let editor :=
    Calibration.loadCalibration Calibration.mount
      (Some {| Calibration.parking_slots :=
                 Some (Calibration.CoordsArray <$> calibratedSlots);
               Calibration.illegal_zones := Some ∅ |}) in
  geometry
    <$> Overlay.drawOverlay_slots (Some image) true (Some calibratedSlots)
          slotStates
  = rounded <$> Calibration.drawCanvas editor editor_page.
Proof.
  intros Hnw Hnh Hfour. cbv zeta.
  unfold Overlay.drawOverlay_slots, Calibration.drawCanvas,
    Calibration.loadCalibration.
  cbn [Calibration.parking_slots Calibration.illegal_zones
       Calibration.canvasRef Calibration.imageRef Calibration.containerRef
       Calibration.complete negb Calibration.naturalWidth
       Calibration.naturalHeight Calibration.canvas_width
       Calibration.canvas_height Calibration.mode_of Calibration.mount
       Calibration.rectangles Calibration.rectangles_slots num_eq].
  rewrite !Qeq_bool_pos by assumption. cbn [orb].
  unfold Calibration.load_collection.
  rewrite filter_Boolean_map, map_to_list_fmap.
  change (@fmap list _ _ _ geometry (map ?f ?l))
    with (map geometry (map f l)).
  change (@fmap list _ _ _ rounded (map ?f ?l)) with (map rounded (map f l)).
  rewrite !map_map.
  apply frames_are_rounded_boxes.
  - unfold Overlay.scaleX, Overlay.naturalW, Overlay.or_num.
    cbn [Overlay.naturalWidth Overlay.clientWidth truthy].
    rewrite (Qis_zero_false nw Hnw). cbn [negb truthy].
    rewrite (Qis_zero_false nw Hnw). reflexivity.
  - unfold Overlay.scaleY, Overlay.naturalH, Overlay.or_num.
    cbn [Overlay.naturalHeight Overlay.clientHeight truthy].
    rewrite (Qis_zero_false nh Hnh). cbn [negb truthy].
    rewrite (Qis_zero_false nh Hnh). reflexivity.
  - apply Forall_forall. intros [k coords] Hin.
    apply elem_of_map_to_list in Hin.
    exact (Hfour k coords Hin).
Qed.

Lemma overlay_frames_are_editor_boxes_witness :
  geometry
    <$> Overlay.drawOverlay_slots (H := ref_engine)
          (Some {| Overlay.naturalWidth := Fin 1600;
                   Overlay.naturalHeight := Fin 900;
                   Overlay.width := Fin 0; Overlay.height := Fin 0;
                   Overlay.clientWidth := Fin 800;
                   Overlay.clientHeight := Fin 450 |})
          true (Some {[ "A1" := tuple (101, 100, 300, 300) ]}) None
  = rounded
      <$> Calibration.drawCanvas (H := ref_engine)
            (Calibration.loadCalibration Calibration.mount
               (Some {| Calibration.parking_slots :=
                          Some (Calibration.CoordsArray
                                  <$> {[ "A1" := tuple (101, 100, 300, 300) ]});
                        Calibration.illegal_zones := Some ∅ |}))
            page.
Proof.
  apply (overlay_frames_are_editor_boxes (H := ref_engine)
           {[ "A1" := tuple (101, 100, 300, 300) ]} None 1600 900
           (Fin 0) (Fin 0) (Fin 800) (Fin 450)
           {| Calibration.rect_left := num_of_Z 0;
              Calibration.rect_top := num_of_Z 0 |});
    [reflexivity | reflexivity |].
  apply map_Forall_singleton. reflexivity.
Defined.

(** ** The navigation bar *)

(** X28.  Whatever the current path, at most one item of the navigation bar
    is shown as active: Home only on the path "/" itself, the others on any
    path that starts with theirs, and no path starts with two of them. *)
Theorem at_most_one_active_item (pathname : string) :
  (length (filter (fun item => TopNav.isActive pathname item.1 = true)
             TopNav.navItems) <= 1)%nat.
Proof.
  unfold TopNav.navItems.
  rewrite !filter_cons, filter_nil. cbn [fst].
  unfold TopNav.isActive. cbn [String.eqb Ascii.eqb Bool.eqb].
  destruct (String.eqb_spec pathname "/") as [-> | _].
  - vm_compute. lia.
  - destruct (startsWith pathname "/analytics") eqn:Ea,
      (startsWith pathname "/imem") eqn:Ei,
      (startsWith pathname "/calibration") eqn:Ec;
      repeat match goal with
             | E : startsWith _ _ = true |- _ =>
                 apply startsWith_spec in E as [? E]
             end;
      subst; try discriminate;
      repeat match goal with
             | |- context [decide ?P] => destruct (decide P)
             end;
      try discriminate; cbn [length]; lia.
Qed.

Example analytics_page :
  map snd (filter (fun item => TopNav.isActive "/analytics/week" item.1 = true)
             TopNav.navItems)
  = ["Analytics"].
Proof. vm_compute. reflexivity. Qed.
